(** * Vikas_Strategy: the delta-neutral decision core, embedded and verified

  A shallow embedding of the Python sources

    - [src/strategy/portfolio.py]      ([Position], [PortfolioManager])
    - [src/strategy/delta_neutral.py]  ([DeltaNeutralStrategy])
    - [src/trading/paper_trading.py]   ([PaperTradingExecutor])
    - [src/utils/config.py]            ([ConfigManager])

  Numbers.  Python [int] is [Z].  [Decimal] and [float] values are read as
  exact rationals ([Q]): rounding, NaN and infinities are outside the
  model, every comparison is the numeric one ([Qle_bool], [Qeq_bool]).
  Exceptions are explicit: fallible functions return a [result].
  Dictionaries keyed by symbol are [gmap string _]; dictionaries with a
  fixed documented shape (a position, an option-chain entry, a market-data
  entry, the strategy configuration) are records.  A loop over a
  dictionary visits the entries in the map's own order, so what such a loop
  returns is stated by membership, not by position. *)

From Stdlib Require Import QArith Qabs Qround Lqa ZArith Lia Sorted.
From stdpp Require Import gmap strings list fin_maps sorting.

Set Default Proof Using "Type".

(** ** Python primitives used by the sources *)

Module Py.

(** The exceptions the modelled code can raise. *)
Inductive exception :=
| ZeroDivisionError
| IndexError
| FileNotFoundError
| ValueError (msg : string).

Inductive result (A : Type) :=
| Ok (a : A)
| Raise (e : exception).
Arguments Ok {A} a.
Arguments Raise {A} e.

#[global] Instance result_bind : MBind result := fun A B k r =>
  match r with
  | Ok a => k a
  | Raise e => Raise e
  end.

#[global] Instance result_ret : MRet result := fun A a => Ok a.

(** [x > y] and [x < y] on numbers. *)
Definition Qltb (x y : Q) : bool := negb (Qle_bool y x).

(** [int(x)]: truncation toward zero. *)
Definition int (x : Q) : Z := Z.quot (Qnum x) (Zpos (Qden x)).

(** [l[:n]]: a negative bound counts from the end. *)
Definition slice_to {A} (n : Z) (l : list A) : list A :=
  if (n <? 0)%Z
  then take (Z.to_nat (Z.of_nat (length l) + n)) l
  else take (Z.to_nat n) l.

(** [list.sort(key=...)] is a stable sort.  A stable sort has exactly one
    possible output, so it is modelled by stable insertion: an element is
    placed before the first element whose key is not smaller. *)
Section Sort.
Context {A : Type} (key : A -> Q).

Fixpoint insert_by (x : A) (l : list A) : list A :=
  match l with
  | [] => [x]
  | y :: l' =>
      if Qle_bool (key x) (key y) then x :: y :: l'
      else y :: insert_by x l'
  end.

Fixpoint sort_by (l : list A) : list A :=
  match l with
  | [] => []
  | x :: l' => insert_by x (sort_by l')
  end.

End Sort.


End Py.

(** ** portfolio.py *)

Module Portfolio.
Import Py.

Record Position := mkPosition {
  symbol : string;
  quantity : Z;
  entry_price : Q;
  current_price : Q;
  delta : Q;
  option_type : string;
  strike_price : Z;
  expiry : string
}.

(** [Position.pnl] and [Position.net_delta]. *)
Definition pnl (p : Position) : Q :=
  ((current_price p - entry_price p) * inject_Z (quantity p))%Q.

Definition net_delta (p : Position) : Q :=
  (delta p * inject_Z (quantity p))%Q.

Record PortfolioManager := mkPortfolio {
  positions : gmap string Position;
  target_delta : Q
}.

(** [PortfolioManager(target_delta)]. *)
Definition init (target : Q) : PortfolioManager :=
  {| positions := ∅; target_delta := target |}.

(** [sum(pos.net_delta for pos in self.positions.values())]. *)
Definition total_delta (pm : PortfolioManager) : Q :=
  foldl (fun acc kp => acc + net_delta (snd kp))%Q 0%Q
        (map_to_list (positions pm)).

Definition delta_deviation (pm : PortfolioManager) : Q :=
  (total_delta pm - target_delta pm)%Q.

Definition add_position (pm : PortfolioManager) (p : Position)
  : PortfolioManager :=
  {| positions := <[symbol p := p]> (positions pm);
     target_delta := target_delta pm |}.

Definition remove_position (pm : PortfolioManager) (sym : string)
  : PortfolioManager :=
  {| positions := delete sym (positions pm);
     target_delta := target_delta pm |}.

(** [setattr(position, key, value)] for the keyword arguments the
    repository passes, which are all [Decimal]s; the [hasattr] test fails
    for any other name and the position is left alone. *)
Definition setattr (p : Position) (key : string) (value : Q) : Position :=
  if String.eqb key "current_price" then
    mkPosition (symbol p) (quantity p) (entry_price p) value (delta p)
               (option_type p) (strike_price p) (expiry p)
  else if String.eqb key "delta" then
    mkPosition (symbol p) (quantity p) (entry_price p) (current_price p) value
               (option_type p) (strike_price p) (expiry p)
  else if String.eqb key "entry_price" then
    mkPosition (symbol p) (quantity p) value (current_price p) (delta p)
               (option_type p) (strike_price p) (expiry p)
  else p.

(** [update_position(symbol, **kwargs)]. *)
Definition update_position (pm : PortfolioManager) (sym : string)
           (kwargs : list (string * Q)) : PortfolioManager :=
  match positions pm !! sym with
  | Some position =>
      {| positions :=
           <[sym := foldl (fun p kv => setattr p (fst kv) (snd kv))
                          position kwargs]> (positions pm);
         target_delta := target_delta pm |}
  | None => pm
  end.

(** A suggested adjustment trade: the dictionary with keys [action],
    [option_type], [target_delta]. *)
Record Adjustment := mkAdjustment {
  adj_action : string;
  adj_option_type : string;
  adj_target_delta : Q
}.

Definition get_adjustment_trades (pm : PortfolioManager) (threshold : Q)
  : list Adjustment :=
  let deviation := delta_deviation pm in
  if Qle_bool (Qabs deviation) threshold then []
  else if Qltb threshold deviation then
    [ mkAdjustment "BUY" "PE" (- deviation) ]
  else if Qltb deviation (- threshold) then
    [ mkAdjustment "BUY" "CE" (Qabs deviation) ]
  else [].

Definition get_total_pnl (pm : PortfolioManager) : Q :=
  foldl (fun acc kp => acc + pnl (snd kp))%Q 0%Q (map_to_list (positions pm)).

End Portfolio.

(** ** delta_neutral.py *)

(** One entry of an options chain: the dictionary with keys [symbol],
    [last_price], [bid_price], [ask_price], [instrument_type], [strike],
    [expiry], [underlying_price]. *)
Module Opt.
Record t := mk {
  symbol : string;
  last_price : Q;
  bid_price : Q;
  ask_price : Q;
  instrument_type : string;
  strike : Q;
  expiry : string;
  underlying_price : Q
}.
End Opt.

(** One entry of a market-data snapshot: the dictionary with keys
    [last_price], [bid_price], [ask_price], [volume], [delta],
    [instrument_type], [strike], [expiry]. *)
Module Quote.
Record t := mk {
  last_price : Q;
  bid_price : Q;
  ask_price : Q;
  volume : Z;
  delta : Q;
  instrument_type : string;
  strike : Z;
  expiry : string
}.
End Quote.

Module DeltaNeutral.
Import Py.

(** [config['trading']] and [config['strategy']], with the fields the
    strategy reads. *)
Record TradingConfig := mkTrading {
  capital : Q;
  max_loss_percentage : Q;
  target_profit_percentage : Q
}.

Record StrategyConfig := mkStrategyConfig {
  target_delta : Q;
  position_sizing : Q;
  adjustment_threshold : Q;
  min_premium : Q;
  max_positions : Z
}.

Record Config := mkConfig {
  trading : TradingConfig;
  strategy : StrategyConfig
}.

Record DeltaNeutralStrategy := mkStrategy {
  config : Config;
  portfolio : Portfolio.PortfolioManager
}.

(** [DeltaNeutralStrategy(config)]. *)
Definition init (cfg : Config) : DeltaNeutralStrategy :=
  {| config := cfg;
     portfolio := Portfolio.init (target_delta (strategy cfg)) |}.

(** The two sort keys of [select_options]. *)
Definition spread (x : Opt.t) : Q :=
  Qabs (Opt.bid_price x - Opt.ask_price x).

Definition distance (spot_price : Q) (x : Opt.t) : Q :=
  Qabs (Opt.strike x - spot_price).

(** The body of [for options in [call_options, put_options]]. *)
Definition extend_selected (max_positions : Z) (spot_price : Q)
           (selected_options options : list Opt.t) : list Opt.t :=
  match options with
  | [] => selected_options
  | _ :: _ =>
      selected_options
        ++ slice_to (Z.div max_positions 2)
                    (sort_by (distance spot_price) options)
  end.

Definition select_options (self : DeltaNeutralStrategy) (spot_price : Q)
           (options_chain : list Opt.t) : list Opt.t :=
  let min_premium := min_premium (strategy (config self)) in
  let max_positions := max_positions (strategy (config self)) in
  let valid_options :=
    List.filter (fun opt => Qle_bool min_premium (Opt.last_price opt))
                options_chain in
  let valid_options := sort_by spread valid_options in
  let call_options :=
    List.filter (fun opt => String.eqb (Opt.instrument_type opt) "CE")
                valid_options in
  let put_options :=
    List.filter (fun opt => String.eqb (Opt.instrument_type opt) "PE")
                valid_options in
  let selected_options :=
    foldl (extend_selected max_positions spot_price) []
          [call_options; put_options] in
  slice_to max_positions selected_options.

(** Float division raises on a zero divisor. *)
Definition truediv (x y : Q) : result Q :=
  if Qeq_bool y 0 then Raise ZeroDivisionError else Ok (x / y)%Q.

Definition calculate_position_size (self : DeltaNeutralStrategy)
           (option : Opt.t) : result Z :=
  let capital := capital (trading (config self)) in
  let position_sizing := position_sizing (strategy (config self)) in
  let max_risk :=
    (capital * (max_loss_percentage (trading (config self)) / 100))%Q in
  let option_price := Opt.last_price option in
  ratio ← truediv max_risk option_price;
  let max_quantity := int ratio in
  let target_quantity := int (inject_Z max_quantity * position_sizing)%Q in
  Ok (Z.max 1 target_quantity).

Definition check_adjustment_needed (self : DeltaNeutralStrategy)
  : bool * list Portfolio.Adjustment :=
  let threshold := adjustment_threshold (strategy (config self)) in
  let adjustments :=
    Portfolio.get_adjustment_trades (portfolio self) threshold in
  (match adjustments with [] => false | _ :: _ => true end, adjustments).

(** One iteration of the loop of [update_positions]. *)
Definition update_one (market_data : gmap string Quote.t)
           (pm : Portfolio.PortfolioManager) (symbol : string)
  : Portfolio.PortfolioManager :=
  match market_data !! symbol with
  | Some data =>
      Portfolio.update_position pm symbol
        [ ("current_price"%string, Quote.last_price data);
          ("delta"%string, Quote.delta data) ]
  | None => pm
  end.

Definition update_positions (self : DeltaNeutralStrategy)
           (market_data : gmap string Quote.t) : DeltaNeutralStrategy :=
  {| config := config self;
     portfolio :=
       foldl (fun pm kp => update_one market_data pm (fst kp))
             (portfolio self)
             (map_to_list (Portfolio.positions (portfolio self))) |}.

(** An entry signal: keys [symbol], [action], [quantity], [option_type],
    [strike_price], [expiry]. *)
Record EntrySignal := mkEntry {
  en_symbol : string;
  en_action : string;
  en_quantity : Z;
  en_option_type : string;
  en_strike_price : Q;
  en_expiry : string
}.

(** The loop [for option in selected_options] of [get_entry_signals]. *)
Fixpoint entry_loop (self : DeltaNeutralStrategy)
         (selected_options : list Opt.t) (signals : list EntrySignal)
  : result (list EntrySignal) :=
  match selected_options with
  | [] => Ok signals
  | option :: rest =>
      quantity ← calculate_position_size self option;
      entry_loop self rest
        (signals ++ [ mkEntry (Opt.symbol option) "BUY" quantity
                              (Opt.instrument_type option)
                              (Opt.strike option) (Opt.expiry option) ])
  end.

Definition get_entry_signals (self : DeltaNeutralStrategy)
           (options_data : list Opt.t) : result (list EntrySignal) :=
  let signals := [] in
  let current_positions :=
    Z.of_nat (size (Portfolio.positions (portfolio self))) in
  let max_positions := max_positions (strategy (config self)) in
  if (max_positions <=? current_positions)%Z then Ok signals
  else
    match options_data with
    | [] => Raise IndexError
    | first :: _ =>
        let selected_options :=
          select_options self (Opt.underlying_price first) options_data in
        entry_loop self selected_options signals
    end.

(** An exit signal: keys [symbol], [action], [quantity], [reason]. *)
Record ExitSignal := mkExit {
  ex_symbol : string;
  ex_action : string;
  ex_quantity : Z;
  ex_reason : string
}.

(** The loop [for symbol, position in self.portfolio.positions.items()] of
    [get_exit_signals]. *)
Fixpoint exit_loop (target_profit max_loss : Q)
         (items : list (string * Portfolio.Position))
         (signals : list ExitSignal) : result (list ExitSignal) :=
  match items with
  | [] => Ok signals
  | (symbol, position) :: rest =>
      pnl_percentage ←
        truediv (Portfolio.pnl position)
                (Portfolio.entry_price position
                 * inject_Z (Portfolio.quantity position))%Q;
      if Qle_bool target_profit pnl_percentage
         || Qle_bool pnl_percentage (- max_loss)
      then
        exit_loop target_profit max_loss rest
          (signals ++ [ mkExit symbol "SELL" (Portfolio.quantity position)
                          (if Qle_bool target_profit pnl_percentage
                           then "target_hit" else "stop_loss") ])
      else exit_loop target_profit max_loss rest signals
  end.

Definition get_exit_signals (self : DeltaNeutralStrategy)
  : result (list ExitSignal) :=
  let signals := [] in
  let target_profit :=
    (target_profit_percentage (trading (config self)) / 100)%Q in
  let max_loss := (max_loss_percentage (trading (config self)) / 100)%Q in
  exit_loop target_profit max_loss
            (map_to_list (Portfolio.positions (portfolio self))) signals.

End DeltaNeutral.

(** ** paper_trading.py *)

Module PaperTrading.
Import Py.

(** A simulated order: keys [symbol], [quantity], [side], [type], [price],
    [status], [order_id] (the wall-clock [timestamp] is left out). *)
Record Order := mkOrder {
  symbol : string;
  quantity : Z;
  side : string;
  order_type : string;
  price : Q;
  status : string;
  order_id : Z
}.

(** The executor's own state: [self.positions], [self.orders],
    [self.market_data]. *)
Record PaperTradingExecutor := mkExecutor {
  positions : gmap string Portfolio.Position;
  orders : list Order;
  market_data : gmap string Quote.t
}.

(** [PaperTradingExecutor(strategy)] without a data path. *)
Definition init : PaperTradingExecutor :=
  {| positions := ∅; orders := []; market_data := ∅ |}.

(** The quote simulated when no market data is loaded. *)
Definition simulated_quote : Quote.t :=
  Quote.mk 100 (199#2) (201#2) 1000 (1#2) "CE" 100 "2024-01-31".

(** [get_market_data(symbols)]: both branches are dictionary
    comprehensions over [symbols]. *)
Definition get_market_data (self : PaperTradingExecutor)
           (symbols : list string) : gmap string Quote.t :=
  if (size (market_data self) =? 0)%nat then
    list_to_map ((fun symbol => (symbol, simulated_quote)) <$> symbols)
  else
    list_to_map
      (omap (fun symbol => (fun data => (symbol, data))
                             <$> market_data self !! symbol) symbols).

(** [place_order]: the outcome and the state left behind.  The order is
    appended before the positions are touched, so it stays recorded when
    the averaging division raises. *)
Definition place_order (self : PaperTradingExecutor) (symbol : string)
           (quantity : Z) (side : string) (order_type : string)
  : result Order * PaperTradingExecutor :=
  let market_data := get_market_data self [symbol] in
  match market_data !! symbol with
  | None =>
      (Raise (ValueError ("No market data available for " +:+ symbol)), self)
  | Some data =>
      let current_price := Quote.last_price data in
      let order :=
        mkOrder symbol quantity side order_type current_price "COMPLETE"
                (Z.of_nat (length (orders self)) + 1) in
      let orders' := orders self ++ [order] in
      let keep positions' :=
        (Ok order, mkExecutor positions' orders' (PaperTrading.market_data self)) in
      if String.eqb side "BUY" then
        match positions self !! symbol with
        | None =>
            keep (<[symbol :=
                     Portfolio.mkPosition symbol quantity current_price
                       current_price (Quote.delta data)
                       (Quote.instrument_type data) (Quote.strike data)
                       (Quote.expiry data)]> (positions self))
        | Some pos =>
            if (Portfolio.quantity pos + quantity =? 0)%Z then
              (Raise ZeroDivisionError,
               mkExecutor (positions self) orders'
                          (PaperTrading.market_data self))
            else
              let avg_price :=
                ((Portfolio.entry_price pos * inject_Z (Portfolio.quantity pos)
                  + current_price * inject_Z quantity)
                 / inject_Z (Portfolio.quantity pos + quantity))%Q in
              keep (<[symbol :=
                       Portfolio.mkPosition (Portfolio.symbol pos)
                         (Portfolio.quantity pos + quantity) avg_price
                         (Portfolio.current_price pos) (Portfolio.delta pos)
                         (Portfolio.option_type pos)
                         (Portfolio.strike_price pos)
                         (Portfolio.expiry pos)]> (positions self))
        end
      else if String.eqb side "SELL" then
        match positions self !! symbol with
        | Some pos =>
            let quantity' := (Portfolio.quantity pos - quantity)%Z in
            if (quantity' <=? 0)%Z then keep (delete symbol (positions self))
            else
              keep (<[symbol :=
                       Portfolio.mkPosition (Portfolio.symbol pos) quantity'
                         (Portfolio.entry_price pos)
                         (Portfolio.current_price pos) (Portfolio.delta pos)
                         (Portfolio.option_type pos)
                         (Portfolio.strike_price pos)
                         (Portfolio.expiry pos)]> (positions self))
        | None => keep (positions self)
        end
      else keep (positions self)
  end.

(** [simulate_market_update(market_data)]. *)
Definition simulate_market_update (self : PaperTradingExecutor)
           (update : gmap string Quote.t) : PaperTradingExecutor :=
  {| positions :=
       map_imap (fun symbol position =>
                   Some (match update !! symbol with
                         | Some data =>
                             Portfolio.setattr
                               (Portfolio.setattr position "current_price"
                                  (Quote.last_price data))
                               "delta" (Quote.delta data)
                         | None => position
                         end)) (positions self);
     orders := orders self;
     market_data := update ∪ market_data self |}.

(** A trade signal as [execute_trades] reads it: [signal['symbol']],
    [signal['quantity']], [signal['action']]. *)
Record Trade := mkTrade {
  t_symbol : string;
  t_quantity : Z;
  t_action : string
}.

(** [TradingExecutor.execute_trades] (base.py): every signal is placed in
    turn, a failed order is logged and skipped. *)
Fixpoint execute_trades (self : PaperTradingExecutor) (signals : list Trade)
         (executed_orders : list Order)
  : list Order * PaperTradingExecutor :=
  match signals with
  | [] => (executed_orders, self)
  | signal :: rest =>
      match place_order self (t_symbol signal) (t_quantity signal)
                        (t_action signal) "MARKET" with
      | (Ok order, self') =>
          execute_trades self' rest (executed_orders ++ [order])
      | (Raise _, self') => execute_trades self' rest executed_orders
      end
  end.

End PaperTrading.

(** ** config.py *)

Module Config.
Import Py.

(** A JSON value stored under a field: a number, a string, or a nested
    object of strings (such as [trading_hours]).  The loaded configuration
    maps section names to objects of fields:
    [gmap string (gmap string value)]. *)
Inductive value :=
| VNum (q : Q)
| VStr (s : string)
| VObj (fields : list (string * string)).

Definition DEFAULT_CONFIG_PATH : string := "config.json".

(** [REQUIRED_FIELDS], in the order the dictionary literal lists them. *)
Definition REQUIRED_FIELDS : list (string * list string) :=
  [ ("trading", ["mode"; "capital"; "max_loss_percentage";
                 "target_profit_percentage"]);
    ("strategy", ["target_delta"; "position_sizing"; "adjustment_threshold"]);
    ("zerodha", ["api_key"; "api_secret"]) ]%string.

(** [for field in fields]. *)
Fixpoint validate_fields (section : string) (content : gmap string value)
         (fields : list string) : result unit :=
  match fields with
  | [] => Ok tt
  | field :: rest =>
      match content !! field with
      | None =>
          Raise (ValueError ("Missing required config field: "
                             +:+ section +:+ "." +:+ field))
      | Some _ => validate_fields section content rest
      end
  end.

(** [for section, fields in self.REQUIRED_FIELDS.items()]. *)
Fixpoint validate_sections (config : gmap string (gmap string value))
         (required : list (string * list string)) : result unit :=
  match required with
  | [] => Ok tt
  | (section, fields) :: rest =>
      match config !! section with
      | None =>
          Raise (ValueError ("Missing required config section: " +:+ section))
      | Some content =>
          _ ← validate_fields section content fields;
          validate_sections config rest
      end
  end.

Definition _validate_config (config : gmap string (gmap string value)) : result unit :=
  validate_sections config REQUIRED_FIELDS.

(** [_load_config]: the files that exist are given with their parsed JSON
    content. *)
Definition _load_config
           (files : gmap string (gmap string (gmap string value)))
           (config_path : string)
  : result (gmap string (gmap string value)) :=
  match files !! config_path with
  | None => Raise FileNotFoundError
  | Some config => Ok config
  end.

Record ConfigManager := mkConfigManager {
  config_path : string;
  config : gmap string (gmap string value)
}.

(** [ConfigManager(config_path)]. *)
Definition init (files : gmap string (gmap string (gmap string value)))
           (path : option string)
  : result ConfigManager :=
  let config_path :=
    match path with
    | Some p => if String.eqb p "" then DEFAULT_CONFIG_PATH else p
    | None => DEFAULT_CONFIG_PATH
    end in
  config ← _load_config files config_path;
  _ ← _validate_config config;
  Ok (mkConfigManager config_path config).

End Config.

(** ** config.py: reading and changing a loaded configuration *)

Module ConfigAccess.
Import Py Config.

(** The outcome of a dictionary access: the value, or [KeyError] with its
    message. *)
Inductive keyed (A : Type) :=
| Found (a : A)
| KeyError (msg : string).
Arguments Found {A} a.
Arguments KeyError {A} msg.

(** What [get] returns: a whole section when [field] is [None], one value
    otherwise. *)
Inductive got :=
| GotSection (content : gmap string value)
| GotField (v : value).

Definition get (self : ConfigManager) (section : string)
           (field : option string) : keyed got :=
  match config self !! section with
  | None =>
      KeyError ("Configuration section '" +:+ section +:+ "' not found")
  | Some content =>
      match field with
      | None => Found (GotSection content)
      | Some field =>
          match content !! field with
          | None =>
              KeyError ("Configuration field '" +:+ field
                        +:+ "' not found in section '" +:+ section +:+ "'")
          | Some v => Found (GotField v)
          end
      end
  end.

Definition update (self : ConfigManager) (section field : string)
           (v : value) : keyed ConfigManager :=
  match config self !! section with
  | None =>
      KeyError ("Configuration section '" +:+ section +:+ "' not found")
  | Some content =>
      Found (mkConfigManager (config_path self)
               (<[section := <[field := v]> content]> (config self)))
  end.

(** [save]: the file at [config_path] now holds the configuration. *)
Definition save (files : gmap string (gmap string (gmap string value)))
           (self : ConfigManager)
  : gmap string (gmap string (gmap string value)) :=
  <[config_path self := config self]> files.

End ConfigAccess.

(** ** monitoring.py: maximum drawdown *)

Module Monitoring.
Import Py.

(** [max(a, b)]: the first argument unless the second is greater. *)
Definition max (a b : Q) : Q := if Qltb a b then b else a.

(** The loop [for value in values] of [_calculate_max_drawdown]. *)
Fixpoint drawdown_loop (values : list Q) (peak max_drawdown : Q) : Q :=
  match values with
  | [] => max_drawdown
  | value :: rest =>
      let peak := if Qltb peak value then value else peak in
      let drawdown :=
        if negb (Qeq_bool peak 0) then ((peak - value) / peak)%Q else 0%Q in
      drawdown_loop rest peak (max max_drawdown drawdown)
  end.

Definition _calculate_max_drawdown (values : list Q) : result Q :=
  match values with
  | [] => Raise IndexError
  | first :: _ => Ok (drawdown_loop values first 0 * 100)%Q
  end.

End Monitoring.

(** ** base.py: the execution cycle, run by the paper executor *)

Module Executor.
Import Py.

(** A running session: the strategy with its portfolio, and the paper
    executor with its own positions, orders and market data. *)
Record Session := mkSession {
  strategy : DeltaNeutral.DeltaNeutralStrategy;
  executor : PaperTrading.PaperTradingExecutor
}.

(** The three kinds of signal dictionaries the strategy produces. *)
Inductive signal :=
| EntrySig (s : DeltaNeutral.EntrySignal)
| ExitSig (s : DeltaNeutral.ExitSignal)
| AdjustSig (a : Portfolio.Adjustment).

(** [signal['symbol']], [signal['quantity']], [signal['action']]: an
    adjustment has neither a symbol nor a quantity. *)
Definition signal_symbol (s : signal) : option string :=
  match s with
  | EntrySig e => Some (DeltaNeutral.en_symbol e)
  | ExitSig x => Some (DeltaNeutral.ex_symbol x)
  | AdjustSig _ => None
  end.

Definition signal_quantity (s : signal) : option Z :=
  match s with
  | EntrySig e => Some (DeltaNeutral.en_quantity e)
  | ExitSig x => Some (DeltaNeutral.ex_quantity x)
  | AdjustSig _ => None
  end.

Definition signal_action (s : signal) : string :=
  match s with
  | EntrySig e => DeltaNeutral.en_action e
  | ExitSig x => DeltaNeutral.ex_action x
  | AdjustSig a => Portfolio.adj_action a
  end.

(** [execute_trades(signals)]: a signal whose order raises, or which lacks
    a key, is logged and skipped. *)
Fixpoint execute_trades (self : PaperTrading.PaperTradingExecutor)
         (signals : list signal) (executed_orders : list PaperTrading.Order)
  : list PaperTrading.Order * PaperTrading.PaperTradingExecutor :=
  match signals with
  | [] => (executed_orders, self)
  | signal :: rest =>
      match signal_symbol signal, signal_quantity signal with
      | Some symbol, Some quantity =>
          match PaperTrading.place_order self symbol quantity
                  (signal_action signal) "MARKET" with
          | (Ok order, self') =>
              execute_trades self' rest (executed_orders ++ [order])
          | (Raise _, self') => execute_trades self' rest executed_orders
          end
      | _, _ => execute_trades self rest executed_orders
      end
  end.

(** [update_portfolio]. *)
Definition update_portfolio (s : Session) : Session :=
  let symbols :=
    (fun kp => Portfolio.symbol (snd kp))
      <$> map_to_list (Portfolio.positions
                         (DeltaNeutral.portfolio (strategy s))) in
  match symbols with
  | [] => s
  | _ :: _ =>
      let market_data := PaperTrading.get_market_data (executor s) symbols in
      mkSession (DeltaNeutral.update_positions (strategy s) market_data)
                (executor s)
  end.

(** [check_and_adjust_portfolio]. *)
Definition check_and_adjust_portfolio (s : Session) : Session :=
  let '(needs_adjustment, adjustments) :=
    DeltaNeutral.check_adjustment_needed (strategy s) in
  if needs_adjustment
  then mkSession (strategy s)
         (snd (execute_trades (executor s) (AdjustSig <$> adjustments) []))
  else s.

(** [get_entry_signals] as [monitor_and_execute] calls it, on the
    dictionary [get_market_data([])]: past the early return,
    [options_data[0]] looks up the key [0] among symbol strings and
    raises ([None]). *)
Definition get_entry_signals_of_dict (self : DeltaNeutral.DeltaNeutralStrategy)
           (options_data : gmap string Quote.t)
  : option (list DeltaNeutral.EntrySignal) :=
  let current_positions :=
    Z.of_nat (size (Portfolio.positions (DeltaNeutral.portfolio self))) in
  let max_positions :=
    DeltaNeutral.max_positions (DeltaNeutral.strategy (DeltaNeutral.config self)) in
  if (max_positions <=? current_positions)%Z then Some [] else None.

(** [monitor_and_execute]: any exception ends the cycle where it is. *)
Definition monitor_and_execute (s : Session) : Session :=
  let s := update_portfolio s in
  match DeltaNeutral.get_exit_signals (strategy s) with
  | Raise _ => s
  | Ok exit_signals =>
      let s :=
        match exit_signals with
        | [] => s
        | _ :: _ =>
            mkSession (strategy s)
              (snd (execute_trades (executor s) (ExitSig <$> exit_signals) []))
        end in
      match get_entry_signals_of_dict (strategy s)
              (PaperTrading.get_market_data (executor s) []) with
      | None => s
      | Some entry_signals =>
          let s :=
            match entry_signals with
            | [] => s
            | _ :: _ =>
                mkSession (strategy s)
                  (snd (execute_trades (executor s)
                          (EntrySig <$> entry_signals) []))
            end in
          check_and_adjust_portfolio s
      end
  end.

End Executor.

(** ** Vocabulary of the statements *)

Section Vocabulary.
Import Py DeltaNeutral.

(** The two filters of [select_options]. *)
Definition is_type (ty : string) (opt : Opt.t) : bool :=
  String.eqb (Opt.instrument_type opt) ty.

Definition has_premium (self : DeltaNeutralStrategy) (opt : Opt.t) : bool :=
  Qle_bool (min_premium (strategy (config self))) (Opt.last_price opt).

(** What [select_options] takes from one side of the chain. *)
Definition side_selection (self : DeltaNeutralStrategy) (spot_price : Q)
           (options_chain : list Opt.t) (ty : string) : list Opt.t :=
  slice_to (Z.div (max_positions (strategy (config self))) 2)
    (sort_by (distance spot_price)
       (List.filter (is_type ty)
          (sort_by spread (List.filter (has_premium self) options_chain)))).


(** [pnl / (entry_price * quantity)] of a position. *)
Definition pnl_percentage (p : Portfolio.Position) : Q :=
  (Portfolio.pnl p
   / (Portfolio.entry_price p * inject_Z (Portfolio.quantity p)))%Q.

(** The signal one loop iteration appends, if any. *)
Definition exit_signal_of (target_profit max_loss : Q)
           (item : string * Portfolio.Position) : option ExitSignal :=
  let pct := pnl_percentage (snd item) in
  if Qle_bool target_profit pct || Qle_bool pct (- max_loss)
  then Some (mkExit (fst item) "SELL" (Portfolio.quantity (snd item))
               (if Qle_bool target_profit pct
                then "target_hit" else "stop_loss"))
  else None.

Definition target_profit (self : DeltaNeutralStrategy) : Q :=
  (target_profit_percentage (trading (config self)) / 100)%Q.

Definition max_loss (self : DeltaNeutralStrategy) : Q :=
  (max_loss_percentage (trading (config self)) / 100)%Q.

(** A position re-marked from the snapshot entry of its symbol, if any. *)
Definition marked (market_data : gmap string Quote.t) (sym : string)
           (p : Portfolio.Position) : Portfolio.Position :=
  match market_data !! sym with
  | Some data =>
      Portfolio.mkPosition (Portfolio.symbol p) (Portfolio.quantity p)
        (Portfolio.entry_price p) (Quote.last_price data) (Quote.delta data)
        (Portfolio.option_type p) (Portfolio.strike_price p)
        (Portfolio.expiry p)
  | None => p
  end.

End Vocabulary.

Section PaperVocabulary.
Import Py PaperTrading.

(** Every held position is long. *)
Definition all_long (self : PaperTradingExecutor) : Prop :=
  forall sym pos, positions self !! sym = Some pos ->
                  (0 < Portfolio.quantity pos)%Z.

(** The states an executor goes through: constructed with or without
    loaded market data, then any sequence of orders with positive
    quantities, with market-data updates in between. *)
Inductive reachable : PaperTradingExecutor -> Prop :=
| reachable_init md : reachable (mkExecutor ∅ [] md)
| reachable_order self symbol quantity side order_type :
    reachable self -> (0 < quantity)%Z ->
    reachable (snd (place_order self symbol quantity side order_type))
| reachable_update self update :
    reachable self -> reachable (simulate_market_update self update).

End PaperVocabulary.

Section ConfigVocabulary.
Import Py Config.

(** Every entry of [REQUIRED_FIELDS] is present in the document. *)
Definition required_present (config : gmap string (gmap string value))
  : Prop :=
  forall section fields,
    (section, fields) ∈ REQUIRED_FIELDS ->
    exists content,
      config !! section = Some content
      /\ forall field, field ∈ fields -> is_Some (content !! field).

End ConfigVocabulary.

Section MoreVocabulary.
Import Py DeltaNeutral.

(** The entry signal [get_entry_signals] builds for a selected option. *)
Definition sig_for (self : DeltaNeutralStrategy) (opt : Opt.t)
           (sig : EntrySignal) : Prop :=
  en_symbol sig = Opt.symbol opt
  /\ en_action sig = "BUY"%string
  /\ calculate_position_size self opt = Ok (en_quantity sig)
  /\ en_option_type sig = Opt.instrument_type opt
  /\ en_strike_price sig = Opt.strike opt
  /\ en_expiry sig = Opt.expiry opt
  /\ (1 <= en_quantity sig)%Z.

End MoreVocabulary.

Section CycleVocabulary.
Import Py Executor.

(** What a batch of SELL signals can do to the executor. *)
Definition only_sold (before after : PaperTrading.PaperTradingExecutor)
  : Prop :=
  PaperTrading.market_data after = PaperTrading.market_data before
  /\ (exists new,
         PaperTrading.orders after = PaperTrading.orders before ++ new
         /\ Forall (fun order => PaperTrading.side order = "SELL"%string) new)
  /\ forall sym, PaperTrading.positions before !! sym = None ->
                 PaperTrading.positions after !! sym = None.

End CycleVocabulary.

(** ** Concrete inputs *)

Module Examples.
Import Py.

Definition expiry_jan : string := "2024-01-31".

(** Positions: a winner (entry 100, mark 120, quantity 10), one bought for
    nothing (entry price 0), and one that has not moved. *)
Definition winner : Portfolio.Position :=
  Portfolio.mkPosition "WIN" 10 100 120 (1 # 2) "CE" 100 expiry_jan.

Definition free_position : Portfolio.Position :=
  Portfolio.mkPosition "FREE" 10 0 5 (1 # 2) "CE" 100 expiry_jan.



(** target_delta 0, position_sizing 1/2, adjustment_threshold 1/10,
    min_premium 5, max_positions 4. *)
Definition strategy_config : DeltaNeutral.StrategyConfig :=
  DeltaNeutral.mkStrategyConfig 0 (1 # 2) (1 # 10) 5 4.

(** capital 100000, max_loss_percentage 2, target_profit_percentage 15. *)
Definition target_15 : DeltaNeutral.TradingConfig :=
  DeltaNeutral.mkTrading 100000 2 15.


Definition strategy_with (trading : DeltaNeutral.TradingConfig)
           (held : list Portfolio.Position)
  : DeltaNeutral.DeltaNeutralStrategy :=
  DeltaNeutral.mkStrategy
    (DeltaNeutral.mkConfig trading strategy_config)
    (foldl Portfolio.add_position (Portfolio.init 0) held).

Definition empty_strategy := strategy_with target_15 [].
Definition winner_strategy := strategy_with target_15 [winner].
Definition free_strategy := strategy_with target_15 [free_position].


(** An options chain around spot 100: two CE at strike 100 with the same
    spread, a CE and a PE five points out, and a PE below the minimum
    premium. *)
Definition call_100_a : Opt.t :=
  Opt.mk "CE100A" 10 (19 # 2) (21 # 2) "CE" 100 expiry_jan 100.
Definition call_100_b : Opt.t :=
  Opt.mk "CE100B" 12 (23 # 2) (25 # 2) "CE" 100 expiry_jan 100.
Definition call_105 : Opt.t :=
  Opt.mk "CE105" 8 7 9 "CE" 105 expiry_jan 100.
Definition put_95 : Opt.t :=
  Opt.mk "PE95" 9 8 10 "PE" 95 expiry_jan 100.
Definition put_100_cheap : Opt.t :=
  Opt.mk "PE100" 3 (5 # 2) (7 # 2) "PE" 100 expiry_jan 100.

Definition chain : list Opt.t :=
  [call_105; call_100_a; put_100_cheap; call_100_b; put_95].

(** A CE at strike 100 with a wider spread, ahead of the tighter one. *)
Definition call_100_wide : Opt.t :=
  Opt.mk "CE100W" 10 9 11 "CE" 100 expiry_jan 100.

Definition chain_wide_first : list Opt.t := [call_100_wide; call_100_a].


(** A snapshot quoting WIN at 130 with delta 3/5. *)
Definition snapshot : gmap string Quote.t :=
  {[ "WIN"%string := Quote.mk 130 129 131 500 (3 # 5) "CE" 100 expiry_jan ]}.

(** Paper trading: BUY 10 X at the simulated 100, the market moves to 110,
    BUY 5 more; then SELL 20. *)
Definition bought_10 : PaperTrading.PaperTradingExecutor :=
  snd (PaperTrading.place_order PaperTrading.init "X" 10 "BUY" "MARKET").

Definition moved_to_110 : PaperTrading.PaperTradingExecutor :=
  PaperTrading.simulate_market_update bought_10
    {[ "X"%string := Quote.mk 110 109 111 1000 (1 # 2) "CE" 100 expiry_jan ]}.

Definition bought_15 : PaperTrading.PaperTradingExecutor :=
  snd (PaperTrading.place_order moved_to_110 "X" 5 "BUY" "MARKET").

(** A configuration with every field of [REQUIRED_FIELDS] and without
    [trading.trading_hours], [strategy.min_premium] and
    [strategy.max_positions]. *)
Definition short_config : gmap string (gmap string Config.value) :=
  list_to_map
    [ ("trading"%string,
       list_to_map [ ("mode"%string, Config.VStr "paper");
                     ("capital"%string, Config.VNum 100000);
                     ("max_loss_percentage"%string, Config.VNum 2);
                     ("target_profit_percentage"%string, Config.VNum 5) ]);
      ("strategy"%string,
       list_to_map [ ("target_delta"%string, Config.VNum 0);
                     ("position_sizing"%string, Config.VNum 1);
                     ("adjustment_threshold"%string, Config.VNum (1 # 10)) ]);
      ("zerodha"%string,
       list_to_map [ ("api_key"%string, Config.VStr "key");
                     ("api_secret"%string, Config.VStr "secret") ]) ].

End Examples.

(** ** Further concrete inputs *)

Module MoreExamples.
Import Py Examples.

(** A chain whose farther CE comes first. *)
Definition chain_far_first : list Opt.t := [call_105; call_100_a].

(** A session in simulation: the strategy holds the winner, the executor
    has just been constructed. *)
Definition simulated_session : Executor.Session :=
  Executor.mkSession winner_strategy PaperTrading.init.

(** Two BUY signals. *)
Definition two_buys : list PaperTrading.Trade :=
  [ PaperTrading.mkTrade "X" 10 "BUY"; PaperTrading.mkTrade "Y" 5 "BUY" ].

(** The manager of the configuration without the three optional fields. *)
Definition short_manager : Config.ConfigManager :=
  Config.mkConfigManager Config.DEFAULT_CONFIG_PATH short_config.

(** A P&L series that rises to 120 and falls back to 90. *)
Definition pnl_series : list Q := [100; 120; 90]%Q.

End MoreExamples.

(** ** Facts about the Python primitives *)

Section PyFacts.
Import Py.

Lemma Qltb_lt (x y : Q) : Qltb x y = true <-> (x < y)%Q.
Proof.
  unfold Qltb. rewrite negb_true_iff.
  destruct (Qle_bool y x) eqn:E.
  - apply Qle_bool_iff in E. split; [discriminate | intros; lra].
  - split; [intros _ | reflexivity].
    destruct (Qlt_le_dec x y) as [|Hle]; [assumption|].
    apply Qle_bool_iff in Hle. congruence.
Qed.

Lemma Qltb_ge (x y : Q) : Qltb x y = false <-> (y <= x)%Q.
Proof.
  unfold Qltb. rewrite negb_false_iff. apply Qle_bool_iff.
Qed.

Lemma Qle_bool_gt (x y : Q) : Qle_bool x y = false <-> (y < x)%Q.
Proof.
  rewrite <- Qltb_lt. unfold Qltb. now rewrite negb_true_iff.
Qed.


End PyFacts.

(** ** List facts: slices, stable sorting, relative order *)

Section ListFacts.
Import Py.
Context {A : Type}.

Lemma slice_to_prefix (n : Z) (l : list A) : slice_to n l `prefix_of` l.
Proof. unfold slice_to. destruct (n <? 0)%Z; apply prefix_take. Qed.

Lemma slice_to_length (n : Z) (l : list A) :
  (0 <= n)%Z -> (Z.of_nat (length (slice_to n l)) <= n)%Z.
Proof.
  intros Hn. unfold slice_to.
  destruct (n <? 0)%Z eqn:E; [apply Z.ltb_lt in E; lia|].
  rewrite length_take. lia.
Qed.

Lemma prefix_is_sublist (l1 l2 : list A) :
  l1 `prefix_of` l2 -> l1 `sublist_of` l2.
Proof. intros [k ->]. now apply sublist_inserts_r. Qed.

Lemma filter_prefix (f : A -> bool) (l1 l2 : list A) :
  l1 `prefix_of` l2 -> List.filter f l1 `prefix_of` List.filter f l2.
Proof. intros [k ->]. rewrite List.filter_app. now eexists. Qed.

Lemma filter_is_sublist (f : A -> bool) (l : list A) :
  List.filter f l `sublist_of` l.
Proof.
  induction l as [|x l IH]; simpl; [constructor|].
  destruct (f x); now constructor.
Qed.




Lemma filter_none (f : A -> bool) (l : list A) :
  Forall (fun x => f x = false) l -> List.filter f l = [].
Proof.
  induction 1 as [|x l Hx _ IH]; simpl; [reflexivity|]. now rewrite Hx.
Qed.

Lemma Forall_filter_true (f : A -> bool) (l : list A) :
  Forall (fun x => f x = true) (List.filter f l).
Proof.
  induction l as [|x l IH]; simpl; [constructor|].
  destruct (f x) eqn:E; [now constructor | assumption].
Qed.


Section SortFacts.
Context (key : A -> Q).

Lemma insert_by_perm (x : A) (l : list A) : insert_by key x l ≡ₚ x :: l.
Proof.
  induction l as [|y l IH]; simpl; [reflexivity|].
  destruct (Qle_bool (key x) (key y)); [reflexivity|].
  rewrite IH. apply perm_swap.
Qed.

Lemma sort_by_perm (l : list A) : sort_by key l ≡ₚ l.
Proof.
  induction l as [|x l IH]; simpl; [reflexivity|].
  rewrite insert_by_perm. now rewrite IH.
Qed.

Lemma sort_by_length (l : list A) : length (sort_by key l) = length l.
Proof. apply Permutation_length, sort_by_perm. Qed.

Lemma sort_by_Forall (P : A -> Prop) (l : list A) :
  Forall P l -> Forall P (sort_by key l).
Proof. intros H. eapply Permutation_Forall; [symmetry; apply sort_by_perm | exact H]. Qed.

(** The output is in nondecreasing key order. *)
Lemma insert_by_sorted (x : A) (l : list A) :
  StronglySorted (fun a b => key a <= key b)%Q l ->
  StronglySorted (fun a b => key a <= key b)%Q (insert_by key x l).
Proof.
  induction 1 as [|y l Hs IH Hy]; simpl.
  - repeat constructor.
  - destruct (Qle_bool (key x) (key y)) eqn:E.
    + apply Qle_bool_iff in E. constructor; [now constructor|].
      constructor; [assumption|].
      eapply Forall_impl; [exact Hy|]. simpl. intros; lra.
    + apply Qle_bool_gt in E. constructor; [assumption|].
      eapply Permutation_Forall; [symmetry; apply insert_by_perm|].
      constructor; [lra | assumption].
Qed.

Lemma sort_by_sorted (l : list A) :
  StronglySorted (fun a b => key a <= key b)%Q (sort_by key l).
Proof.
  induction l as [|x l IH]; simpl; [constructor | now apply insert_by_sorted].
Qed.



End SortFacts.
End ListFacts.

(** ** portfolio.py: delta adjustment *)

Section AdjustmentTrades.
Import Py Portfolio.


End AdjustmentTrades.

(** ** delta_neutral.py: option selection *)

Section SelectOptions.
Import Py DeltaNeutral.

Lemma Forall_sublist {A} (P : A -> Prop) (l1 l2 : list A) :
  l1 `sublist_of` l2 -> Forall P l2 -> Forall P l1.
Proof.
  induction 1 as [|x l1 l2 _ IH|x l1 l2 _ IH]; intros HF.
  - constructor.
  - inversion HF; subst. constructor; auto.
  - inversion HF; subst. auto.
Qed.

Lemma Forall_filter {A} (P : A -> Prop) (f : A -> bool) (l : list A) :
  Forall P l -> Forall P (List.filter f l).
Proof. apply Forall_sublist, filter_is_sublist. Qed.

Lemma extend_selected_eq mp spot (selected options : list Opt.t) :
  extend_selected mp spot selected options
  = selected ++ slice_to (Z.div mp 2) (sort_by (distance spot) options).
Proof.
  destruct options as [|o options]; [|reflexivity].
  simpl. unfold slice_to. destruct (_ <? _)%Z; now rewrite take_nil, app_nil_r.
Qed.

Lemma select_options_eq self spot chain :
  select_options self spot chain
  = slice_to (max_positions (strategy (config self)))
      (side_selection self spot chain "CE"
       ++ side_selection self spot chain "PE").
Proof.
  unfold select_options. simpl. now rewrite !extend_selected_eq.
Qed.

Lemma side_selection_type self spot chain ty :
  Forall (fun opt => is_type ty opt = true)
         (side_selection self spot chain ty).
Proof.
  unfold side_selection.
  eapply Forall_sublist; [apply prefix_is_sublist, slice_to_prefix|].
  apply sort_by_Forall, Forall_filter_true.
Qed.

Lemma side_selection_premium self spot chain ty :
  Forall (fun opt => has_premium self opt = true)
         (side_selection self spot chain ty).
Proof.
  unfold side_selection.
  eapply Forall_sublist; [apply prefix_is_sublist, slice_to_prefix|].
  apply sort_by_Forall, Forall_filter, sort_by_Forall, Forall_filter_true.
Qed.

Lemma side_selection_length self spot chain ty :
  (0 <= max_positions (strategy (config self)))%Z ->
  (Z.of_nat (length (side_selection self spot chain ty))
   <= Z.div (max_positions (strategy (config self))) 2)%Z.
Proof.
  intros H. apply slice_to_length. now apply Z.div_pos.
Qed.

Lemma side_selection_other self spot chain ty ty' :
  ty <> ty' ->
  List.filter (is_type ty') (side_selection self spot chain ty) = [].
Proof.
  intros Hne. apply filter_none.
  eapply Forall_impl; [apply side_selection_type|].
  unfold is_type. intros opt H. apply String.eqb_eq in H.
  apply String.eqb_neq. congruence.
Qed.

(** C5.  With a configured [max_positions >= 0], for every spot price and
    every options chain [select_options] returns at most [max_positions]
    options, each with last traded price [>= min_premium], and at most
    [max_positions // 2] of them are CE and at most [max_positions // 2]
    are PE. *)
Theorem select_options_bounds (self : DeltaNeutralStrategy) (spot_price : Q)
        (options_chain : list Opt.t) :
  (0 <= max_positions (strategy (config self)))%Z ->
  let selected := select_options self spot_price options_chain in
  (Z.of_nat (length selected) <= max_positions (strategy (config self)))%Z
  /\ Forall (fun opt => (min_premium (strategy (config self))
                         <= Opt.last_price opt)%Q) selected
  /\ (Z.of_nat (length (List.filter (is_type "CE") selected))
      <= Z.div (max_positions (strategy (config self))) 2)%Z
  /\ (Z.of_nat (length (List.filter (is_type "PE") selected))
      <= Z.div (max_positions (strategy (config self))) 2)%Z.
Proof.
  intros Hmp selected. subst selected. rewrite select_options_eq.
  set (SC := side_selection self spot_price options_chain "CE").
  set (SP := side_selection self spot_price options_chain "PE").
  assert (Hside : forall ty,
             (Z.of_nat (length (List.filter (is_type ty) (SC ++ SP)))
              <= Z.div (max_positions (strategy (config self))) 2)%Z).
  { intros ty. rewrite List.filter_app, length_app.
    pose proof (side_selection_length self spot_price options_chain "CE" Hmp).
    pose proof (side_selection_length self spot_price options_chain "PE" Hmp).
    pose proof (filter_length_le (is_type ty) SC).
    pose proof (filter_length_le (is_type ty) SP).
    destruct (decide (ty = "CE"%string)) as [->|Hne].
    - unfold SP. rewrite side_selection_other by discriminate.
      simpl. fold SC in H. lia.
    - unfold SC at 1. rewrite side_selection_other by congruence.
      simpl. fold SP in H0. lia. }
  assert (Hpre : forall ty,
             (length (List.filter (is_type ty)
                (slice_to (max_positions (strategy (config self))) (SC ++ SP)))
              <= length (List.filter (is_type ty) (SC ++ SP)))%nat).
  { intros ty. apply prefix_length, filter_prefix, slice_to_prefix. }
  split; [now apply slice_to_length|]. split.
  - eapply Forall_sublist; [apply prefix_is_sublist, slice_to_prefix|].
    apply Forall_app. split;
      (eapply Forall_impl; [apply side_selection_premium|]);
      intros opt H; now apply Qle_bool_iff in H.
  - split; [specialize (Hside "CE"%string); specialize (Hpre "CE"%string)
           | specialize (Hside "PE"%string); specialize (Hpre "PE"%string)];
      lia.
Qed.







End SelectOptions.

(** ** delta_neutral.py: position sizing *)

Section PositionSize.
Import Py DeltaNeutral.







Lemma truediv_ok (x y : Q) : ~ y == 0 -> truediv x y = Ok (x / y)%Q.
Proof.
  intros H. unfold truediv.
  destruct (Qeq_bool y 0) eqn:E; [|reflexivity].
  now apply Qeq_bool_iff in E.
Qed.

Lemma truediv_zero (x y : Q) : y == 0 -> truediv x y = Raise ZeroDivisionError.
Proof.
  intros H. unfold truediv. apply Qeq_bool_iff in H. now rewrite H.
Qed.


End PositionSize.

(** ** delta_neutral.py: exit and entry signals *)

Section Signals.
Import Py DeltaNeutral.

Lemma denominator_zero (p : Portfolio.Position) :
  Portfolio.entry_price p * inject_Z (Portfolio.quantity p) == 0
  <-> Portfolio.entry_price p == 0 \/ Portfolio.quantity p = 0%Z.
Proof.
  split.
  - intros H. apply Qmult_integral in H as [H|H]; [now left | right].
    now apply (inject_Z_injective _ 0).
  - intros [H| ->]; [rewrite H|]; ring.
Qed.

Lemma exit_loop_ok tp ml items signals :
  Forall (fun item : string * Portfolio.Position =>
            ~ Portfolio.entry_price (snd item)
              * inject_Z (Portfolio.quantity (snd item)) == 0) items ->
  exit_loop tp ml items signals
  = Ok (signals ++ omap (exit_signal_of tp ml) items).
Proof.
  intros H. revert signals.
  induction H as [|[symbol position] items Hx _ IH]; intros signals; simpl.
  - now rewrite app_nil_r.
  - rewrite truediv_ok by exact Hx. unfold mbind, result_bind.
    unfold exit_signal_of, pnl_percentage. simpl.
    destruct (_ || _); [|apply IH].
    rewrite IH, <- app_assoc. reflexivity.
Qed.

Lemma exit_loop_raise tp ml items signals :
  Exists (fun item : string * Portfolio.Position =>
            Portfolio.entry_price (snd item)
            * inject_Z (Portfolio.quantity (snd item)) == 0) items ->
  exit_loop tp ml items signals = Raise ZeroDivisionError.
Proof.
  intros H. revert signals.
  induction items as [|[symbol position] items IH]; intros signals;
    [inversion H|].
  simpl. unfold truediv.
  destruct (Qeq_bool _ 0) eqn:E; [reflexivity|].
  apply Qeq_bool_neq in E. unfold mbind, result_bind.
  assert (Hrest : Exists (fun item : string * Portfolio.Position =>
            Portfolio.entry_price (snd item)
            * inject_Z (Portfolio.quantity (snd item)) == 0) items)
    by (inversion H; subst; [contradiction | assumption]).
  destruct (_ || _); now apply IH.
Qed.



(** C4 (what the code does).  A position whose entry_price is zero or whose
    quantity is zero makes [get_exit_signals] raise ZeroDivisionError: the
    division is not guarded, and no signal at all is returned. *)
Theorem get_exit_signals_zero_division (self : DeltaNeutralStrategy)
        (sym : string) (p : Portfolio.Position) :
  Portfolio.positions (portfolio self) !! sym = Some p ->
  Portfolio.entry_price p == 0 \/ Portfolio.quantity p = 0%Z ->
  get_exit_signals self = Raise ZeroDivisionError.
Proof.
  intros Hp Hz. unfold get_exit_signals. apply exit_loop_raise.
  apply Exists_exists. exists (sym, p). split.
  - apply elem_of_map_to_list. exact Hp.
  - simpl. now apply denominator_zero.
Qed.

(** C3 (what the code does).  With the portfolio full,
    [get_entry_signals] returns the empty list whatever the options data;
    below [max_positions], an empty options chain makes it raise
    IndexError at [options_data[0]] instead of returning no signals. *)
Theorem get_entry_signals_empty_chain (self : DeltaNeutralStrategy) :
  (forall options_data,
      (max_positions (strategy (config self))
       <= Z.of_nat (size (Portfolio.positions (portfolio self))))%Z ->
      get_entry_signals self options_data = Ok [])
  /\ ((Z.of_nat (size (Portfolio.positions (portfolio self)))
       < max_positions (strategy (config self)))%Z ->
      get_entry_signals self [] = Raise IndexError).
Proof.
  unfold get_entry_signals. split.
  - intros options_data H. apply Z.leb_le in H. now rewrite H.
  - intros H. apply Z.leb_gt in H. now rewrite H.
Qed.

End Signals.

(** ** delta_neutral.py: marking positions to market *)

Section UpdatePositions.
Import Py DeltaNeutral.

Lemma marked_idem md sym p : marked md sym (marked md sym p) = marked md sym p.
Proof. unfold marked. destruct (md !! sym); reflexivity. Qed.

Lemma update_one_lookup md pm k sym :
  Portfolio.positions (update_one md pm k) !! sym
  = if decide (k = sym)
    then marked md sym <$> Portfolio.positions pm !! sym
    else Portfolio.positions pm !! sym.
Proof.
  unfold update_one, Portfolio.update_position.
  destruct (md !! k) as [data|] eqn:E.
  - destruct (Portfolio.positions pm !! k) as [pos|] eqn:Ek; simpl.
    + destruct (decide (k = sym)) as [<-|Hne].
      * rewrite lookup_insert_eq, Ek. simpl. unfold marked. now rewrite E.
      * now rewrite lookup_insert_ne.
    + destruct (decide (k = sym)) as [<-|Hne]; [now rewrite Ek | reflexivity].
  - destruct (decide (k = sym)) as [<-|Hne]; [|reflexivity].
    destruct (Portfolio.positions pm !! k); [|reflexivity].
    simpl. unfold marked. now rewrite E.
Qed.

Lemma update_one_target md pm k :
  Portfolio.target_delta (update_one md pm k) = Portfolio.target_delta pm.
Proof.
  unfold update_one, Portfolio.update_position.
  destruct (md !! k); [|reflexivity].
  destruct (Portfolio.positions pm !! k); reflexivity.
Qed.

Lemma update_loop_lookup md (items : list (string * Portfolio.Position))
      pm sym :
  Portfolio.positions
    (foldl (fun pm kp => update_one md pm (fst kp)) pm items) !! sym
  = if decide (sym ∈ items.*1)
    then marked md sym <$> Portfolio.positions pm !! sym
    else Portfolio.positions pm !! sym.
Proof.
  revert pm. induction items as [|[k p] items IH]; intros pm.
  - simpl. destruct (decide (sym ∈ [])) as [H|]; [inversion H | reflexivity].
  - cbn [foldl fst]. rewrite fmap_cons. cbn [fst]. rewrite IH, update_one_lookup.
    destruct (decide (sym ∈ items.*1)) as [Hin|Hnin],
             (decide (k = sym)) as [->|Hne].
    + rewrite decide_True by left.
      destruct (Portfolio.positions pm !! sym); simpl;
        [now rewrite marked_idem | reflexivity].
    + rewrite decide_True by now right. reflexivity.
    + rewrite decide_True by left. reflexivity.
    + rewrite decide_False; [reflexivity|].
      intros H. apply elem_of_cons in H as [?|?]; [congruence | contradiction].
Qed.

Lemma update_loop_target md (items : list (string * Portfolio.Position)) pm :
  Portfolio.target_delta
    (foldl (fun pm kp => update_one md pm (fst kp)) pm items)
  = Portfolio.target_delta pm.
Proof.
  revert pm. induction items as [|kp items IH]; intros pm; simpl;
    [reflexivity|]. now rewrite IH, update_one_target.
Qed.

(** Every position is re-marked from its own snapshot entry, and nothing
    else changes. *)
Lemma update_positions_lookup self md sym :
  Portfolio.positions (portfolio (update_positions self md)) !! sym
  = marked md sym <$> Portfolio.positions (portfolio self) !! sym.
Proof.
  unfold update_positions. simpl. rewrite update_loop_lookup.
  destruct (decide (sym ∈ _)) as [|Hnin]; [reflexivity|].
  destruct (Portfolio.positions (portfolio self) !! sym) as [p|] eqn:E;
    [|reflexivity].
  exfalso. apply Hnin. apply list_elem_of_fmap.
  exists (sym, p). split; [reflexivity | now apply elem_of_map_to_list].
Qed.

(** C10.  [update_positions] overwrites [current_price] and [delta] of
    exactly the open positions whose symbol is in the snapshot, with the
    snapshot's [last_price] and [delta]; the other six fields of every
    position are unchanged, a position whose symbol is absent from the
    snapshot is unchanged, and no position is added or removed. *)
Theorem update_positions_frame (self : DeltaNeutralStrategy)
        (market_data : gmap string Quote.t) (sym : string) :
  let before := Portfolio.positions (portfolio self) in
  let after :=
    Portfolio.positions (portfolio (update_positions self market_data)) in
  (forall p data,
      before !! sym = Some p -> market_data !! sym = Some data ->
      exists p',
        after !! sym = Some p'
        /\ Portfolio.current_price p' = Quote.last_price data
        /\ Portfolio.delta p' = Quote.delta data
        /\ Portfolio.symbol p' = Portfolio.symbol p
        /\ Portfolio.quantity p' = Portfolio.quantity p
        /\ Portfolio.entry_price p' = Portfolio.entry_price p
        /\ Portfolio.option_type p' = Portfolio.option_type p
        /\ Portfolio.strike_price p' = Portfolio.strike_price p
        /\ Portfolio.expiry p' = Portfolio.expiry p)
  /\ (forall p,
         before !! sym = Some p -> market_data !! sym = None ->
         after !! sym = Some p)
  /\ (before !! sym = None -> after !! sym = None)
  /\ Portfolio.target_delta (portfolio (update_positions self market_data))
     = Portfolio.target_delta (portfolio self)
  /\ config (update_positions self market_data) = config self.
Proof.
  intros before after. subst before after.
  rewrite update_positions_lookup. repeat split.
  - intros p data -> Hd. simpl. unfold marked. rewrite Hd.
    eexists. split; [reflexivity|]. simpl. repeat split.
  - intros p -> Hd. simpl. unfold marked. now rewrite Hd.
  - now intros ->.
  - apply update_loop_target.
Qed.

End UpdatePositions.

(** ** paper_trading.py: order placement *)

Section PaperTradingFacts.
Import Py PaperTrading.

Lemma get_market_data_lookup self sym :
  get_market_data self [sym] !! sym
  = if (size (market_data self) =? 0)%nat then Some simulated_quote
    else market_data self !! sym.
Proof.
  unfold get_market_data. destruct (_ =? _)%nat; simpl.
  - apply lookup_insert_eq.
  - destruct (market_data self !! sym); simpl;
      [apply lookup_insert_eq | apply lookup_empty].
Qed.


Lemma place_order_sell_out self sym q ot pos data :
  get_market_data self [sym] !! sym = Some data ->
  positions self !! sym = Some pos ->
  (Portfolio.quantity pos - q <= 0)%Z ->
  place_order self sym q "SELL" ot
  = (Ok (mkOrder sym q "SELL" ot (Quote.last_price data) "COMPLETE"
                 (Z.of_nat (length (orders self)) + 1)),
     mkExecutor
       (delete sym (positions self))
       (orders self
        ++ [mkOrder sym q "SELL" ot (Quote.last_price data) "COMPLETE"
                    (Z.of_nat (length (orders self)) + 1)])
       (market_data self)).
Proof.
  intros Hmd Hpos Hle. unfold place_order. rewrite Hmd. cbn zeta.
  change (String.eqb "SELL" "BUY") with false.
  change (String.eqb "SELL" "SELL") with true. cbn iota. rewrite Hpos.
  apply Z.leb_le in Hle. now rewrite Hle.
Qed.

Lemma all_long_insert self sym pos orders' md :
  all_long self -> (0 < Portfolio.quantity pos)%Z ->
  all_long (mkExecutor (<[sym := pos]> (positions self)) orders' md).
Proof.
  intros Hall Hq k p. simpl. rewrite lookup_insert.
  destruct (decide (sym = k)); [intros [= <-]; exact Hq | apply Hall].
Qed.

Lemma all_long_delete self sym orders' md :
  all_long self ->
  all_long (mkExecutor (delete sym (positions self)) orders' md).
Proof.
  intros Hall k p. simpl. rewrite lookup_delete.
  destruct (decide (sym = k)); [discriminate | apply Hall].
Qed.

Lemma all_long_same self orders' md :
  all_long self -> all_long (mkExecutor (positions self) orders' md).
Proof. intros Hall k p. apply Hall. Qed.

Lemma place_order_all_long self sym q side ot :
  (0 < q)%Z -> all_long self ->
  all_long (snd (place_order self sym q side ot)).
Proof.
  intros Hq Hall. unfold place_order.
  destruct (get_market_data self [sym] !! sym) as [data|]; [|exact Hall].
  cbn zeta.
  destruct (String.eqb side "BUY").
  - destruct (positions self !! sym) as [pos|] eqn:Hpos.
    + pose proof (Hall _ _ Hpos).
      destruct (_ =? _)%Z; [now apply all_long_same|].
      apply all_long_insert; [assumption | simpl; lia].
    + now apply all_long_insert.
  - destruct (String.eqb side "SELL"); [|now apply all_long_same].
    destruct (positions self !! sym) as [pos|] eqn:Hpos;
      [|now apply all_long_same].
    destruct (_ <=? _)%Z eqn:E; [now apply all_long_delete|].
    apply Z.leb_gt in E. apply all_long_insert; [assumption | simpl; lia].
Qed.

Lemma setattr_quantity p key v :
  Portfolio.quantity (Portfolio.setattr p key v) = Portfolio.quantity p.
Proof.
  unfold Portfolio.setattr. repeat (destruct (String.eqb _ _); [reflexivity|]).
  reflexivity.
Qed.

Lemma simulate_market_update_all_long self update :
  all_long self -> all_long (simulate_market_update self update).
Proof.
  intros Hall k p. unfold simulate_market_update. simpl.
  rewrite map_lookup_imap.
  destruct (positions self !! k) as [pos|] eqn:Hpos; [|discriminate].
  simpl. intros [= <-]. specialize (Hall _ _ Hpos).
  destruct (update !! k); [|exact Hall].
  now rewrite !setattr_quantity.
Qed.

Lemma reachable_all_long self : reachable self -> all_long self.
Proof.
  induction 1 as [md|self sym q side ot _ IH Hq|self update _ IH].
  - intros k p. simpl. now rewrite lookup_empty.
  - now apply place_order_all_long.
  - now apply simulate_market_update_all_long.
Qed.


End PaperTradingFacts.

(** ** config.py: validation *)

Section ConfigFacts.
Import Py Config.

Lemma validate_fields_ok section content fields :
  validate_fields section content fields = Ok tt
  <-> forall field, field ∈ fields -> is_Some (content !! field).
Proof.
  induction fields as [|f fields IH]; simpl.
  - split; [intros _ field H; inversion H | reflexivity].
  - destruct (content !! f) eqn:E.
    + rewrite IH. split.
      * intros H field Hin. apply elem_of_cons in Hin as [->|Hin]; [eauto|].
        now apply H.
      * intros H field Hin. apply H. now right.
    + split; [discriminate|]. intros H.
      destruct (H f) as [? Hf]; [left|]. congruence.
Qed.

Lemma validate_sections_ok config required :
  validate_sections config required = Ok tt
  <-> forall section fields,
      (section, fields) ∈ required ->
      exists content,
        config !! section = Some content
        /\ forall field, field ∈ fields -> is_Some (content !! field).
Proof.
  induction required as [|[s fs] required IH]; simpl.
  - split; [intros _ ? ? H; inversion H | reflexivity].
  - destruct (config !! s) as [content|] eqn:E.
    + destruct (validate_fields s content fs) as [[]|e] eqn:Ef;
        unfold mbind, result_bind.
      * pose proof (proj1 (validate_fields_ok _ _ _) Ef) as Hfs.
        rewrite IH. split.
        -- intros H section fields Hin.
           apply elem_of_cons in Hin as [[= -> ->]|Hin]; [eauto | now apply H].
        -- intros H section fields Hin. apply H. now right.
      * split; [discriminate|]. intros H.
        destruct (H s fs) as (content' & Hc & Hf); [left|].
        assert (content' = content) as -> by congruence.
        pose proof (proj2 (validate_fields_ok s _ _) Hf). congruence.
    + split; [discriminate|]. intros H.
      destruct (H s fs) as (content' & Hc & _); [left|]. congruence.
Qed.

(** C9 (what the code does).  Validation succeeds exactly when every field
    of [REQUIRED_FIELDS] is present; that table does not list
    [trading.trading_hours], [strategy.min_premium] or
    [strategy.max_positions], so a configuration file without them is
    accepted and the manager is constructed. *)
Theorem validate_config_required_fields :
  (forall config, _validate_config config = Ok tt <-> required_present config)
  /\ init {[ DEFAULT_CONFIG_PATH := Examples.short_config ]} None
     = Ok (mkConfigManager DEFAULT_CONFIG_PATH Examples.short_config)
  /\ (Examples.short_config !! "trading"%string)
       ≫= (.!! "trading_hours"%string) = None
  /\ (Examples.short_config !! "strategy"%string)
       ≫= (.!! "min_premium"%string) = None
  /\ (Examples.short_config !! "strategy"%string)
       ≫= (.!! "max_positions"%string) = None.
Proof.
  split; [intros config; apply validate_sections_ok|].
  repeat split; vm_compute; reflexivity.
Qed.

End ConfigFacts.

(** ** The theorems at concrete inputs *)

Section Runs.
Import Py Examples.





(** An empty chain offered to a strategy with room for positions. *)
Lemma get_entry_signals_empty_chain_witness :
  DeltaNeutral.get_entry_signals empty_strategy [] = Raise IndexError.
Proof.
  apply (get_entry_signals_empty_chain empty_strategy). vm_compute. reflexivity.
Defined.

(** A position with entry price 0. *)
Lemma get_exit_signals_zero_division_witness :
  DeltaNeutral.get_exit_signals free_strategy = Raise ZeroDivisionError.
Proof.
  apply (get_exit_signals_zero_division free_strategy "FREE" free_position).
  - vm_compute. reflexivity.
  - left. vm_compute. reflexivity.
Defined.

(** The example chain with max_positions 4. *)
Lemma select_options_bounds_witness :
  let selected := DeltaNeutral.select_options winner_strategy 100 chain in
  selected = [call_100_a; call_100_b; put_95]
  /\ (Z.of_nat (length selected) <= 4)%Z
  /\ Forall (fun opt => (5 <= Opt.last_price opt)%Q) selected.
Proof.
  split; [vm_compute; reflexivity|].
  destruct (select_options_bounds winner_strategy 100 chain) as (H1 & H2 & _).
  - vm_compute. discriminate.
  - split; [exact H1 | exact H2].
Defined.


(** A tie in strike distance alone is not resolved by chain order: the
    tighter spread comes first. *)
Remark select_options_distance_tie_by_spread :
  DeltaNeutral.distance 100 call_100_wide == DeltaNeutral.distance 100 call_100_a
  /\ DeltaNeutral.select_options winner_strategy 100 chain_wide_first
     = [call_100_a; call_100_wide].
Proof. split; vm_compute; reflexivity. Qed.




(** WIN re-marked at 130 with delta 3/5. *)
Lemma update_positions_frame_witness :
  exists p',
    Portfolio.positions
      (DeltaNeutral.portfolio
         (DeltaNeutral.update_positions winner_strategy snapshot))
    !! "WIN"%string = Some p'
    /\ Portfolio.current_price p' = 130%Q
    /\ Portfolio.delta p' = (3 # 5)%Q
    /\ Portfolio.quantity p' = 10%Z
    /\ Portfolio.entry_price p' = 100%Q.
Proof.
  destruct (update_positions_frame winner_strategy snapshot "WIN") as [H _].
  destruct (H winner (Quote.mk 130 129 131 500 (3 # 5) "CE" 100 expiry_jan))
    as (p' & Hp & Hc & Hd & _ & Hq & He & _).
  - vm_compute. reflexivity.
  - vm_compute. reflexivity.
  - exists p'. repeat split; assumption.
Defined.

End Runs.

(** * Further properties of the modelled code *)

(** ** portfolio.py: bookkeeping *)

Section PortfolioBookkeeping.
Import Py Portfolio.

Lemma sum_acc {A} (f : A -> Q) (l : list A) (a : Q) :
  foldl (fun acc x => acc + f x)%Q a l
  == (a + foldl (fun acc x => acc + f x) 0 l)%Q.
Proof.
  revert a. induction l as [|x l IH]; intros a; simpl; [ring|].
  rewrite (IH (a + f x)%Q), (IH (0 + f x)%Q). ring.
Qed.

Lemma sum_cons {A} (f : A -> Q) (x : A) (l : list A) :
  foldl (fun acc x => acc + f x)%Q 0%Q (x :: l)
  == (f x + foldl (fun acc x => acc + f x) 0 l)%Q.
Proof. simpl. rewrite sum_acc. ring. Qed.

Lemma sum_perm {A} (f : A -> Q) (l l' : list A) :
  l ≡ₚ l' ->
  foldl (fun acc x => acc + f x)%Q 0%Q l
  == foldl (fun acc x => acc + f x)%Q 0%Q l'.
Proof.
  induction 1 as [|x l l' _ IH|x y l|l l' l'' _ IH1 _ IH2].
  - reflexivity.
  - rewrite !sum_cons, IH. reflexivity.
  - rewrite !sum_cons. ring.
  - now rewrite IH1.
Qed.

Lemma sum_insert_fresh (f : string * Position -> Q)
      (m : gmap string Position) sym p :
  m !! sym = None ->
  foldl (fun acc x => acc + f x)%Q 0%Q (map_to_list (<[sym := p]> m))
  == (f (sym, p) + foldl (fun acc x => acc + f x) 0 (map_to_list m))%Q.
Proof.
  intros H. rewrite (sum_perm f _ _ (map_to_list_insert m sym p H)).
  apply sum_cons.
Qed.

Lemma sum_delete (f : string * Position -> Q)
      (m : gmap string Position) sym p :
  m !! sym = Some p ->
  foldl (fun acc x => acc + f x)%Q 0%Q (map_to_list m)
  == (f (sym, p)
      + foldl (fun acc x => acc + f x) 0 (map_to_list (delete sym m)))%Q.
Proof.
  intros H. rewrite <- (sum_perm f _ _ (map_to_list_delete m sym p H)).
  apply sum_cons.
Qed.

(** X1.  The aggregates are additive over the positions held: adding a
    position under a new symbol raises [total_delta] by its net delta and
    [get_total_pnl] by its P&L, and removing a held position lowers them
    by the same amounts. *)
Theorem portfolio_totals_additive (pm : PortfolioManager) :
  (forall p, positions pm !! symbol p = None ->
             total_delta (add_position pm p) == total_delta pm + net_delta p
             /\ get_total_pnl (add_position pm p) == get_total_pnl pm + pnl p)
  /\ (forall sym p, positions pm !! sym = Some p ->
                    total_delta (remove_position pm sym)
                    == total_delta pm - net_delta p
                    /\ get_total_pnl (remove_position pm sym)
                       == get_total_pnl pm - pnl p).
Proof.
  unfold total_delta, get_total_pnl, add_position, remove_position. simpl.
  split.
  - intros p Hp. split.
    + rewrite (sum_insert_fresh (fun kp => net_delta (snd kp)) _ _ _ Hp).
      simpl. ring.
    + rewrite (sum_insert_fresh (fun kp => pnl (snd kp)) _ _ _ Hp).
      simpl. ring.
  - intros sym p Hp. split.
    + rewrite (sum_delete (fun kp => net_delta (snd kp)) _ _ _ Hp).
      simpl. ring.
    + rewrite (sum_delete (fun kp => pnl (snd kp)) _ _ _ Hp).
      simpl. ring.
Qed.

(** X2.  [add_position] replaces, it does not merge: a second position
    under the same symbol discards the first.  [remove_position] of a
    symbol that is not held changes nothing, and removing a position just
    added under a new symbol restores the portfolio. *)
Theorem add_remove_position_laws (pm : PortfolioManager) :
  (forall p, positions (add_position pm p) !! symbol p = Some p)
  /\ (forall p p', symbol p = symbol p' ->
                   add_position (add_position pm p) p' = add_position pm p')
  /\ (forall sym, positions pm !! sym = None -> remove_position pm sym = pm)
  /\ (forall p, positions pm !! symbol p = None ->
                remove_position (add_position pm p) (symbol p) = pm).
Proof.
  destruct pm as [m t]. unfold add_position, remove_position. simpl.
  repeat split.
  - intros p. apply lookup_insert_eq.
  - intros p p' ->. now rewrite insert_insert_eq.
  - intros sym H. now rewrite delete_id.
  - intros p H. now rewrite delete_insert_id.
Qed.


End PortfolioBookkeeping.

(** ** delta_neutral.py: more on option selection and adjustment *)

Section SelectionShape.
Import Py DeltaNeutral.



Lemma slice_to_all {A} (n : Z) (l : list A) :
  (Z.of_nat (length l) <= n)%Z -> slice_to n l = l.
Proof.
  intros H. unfold slice_to.
  destruct (n <? 0)%Z eqn:E; [apply Z.ltb_lt in E; lia|].
  apply take_ge. lia.
Qed.

Lemma slice_to_take {A} (n : Z) (l : list A) :
  exists k, slice_to n l = take k l.
Proof. unfold slice_to. destruct (n <? 0)%Z; eauto. Qed.

Lemma select_options_sides self spot chain :
  (0 <= max_positions (strategy (config self)))%Z ->
  select_options self spot chain
  = side_selection self spot chain "CE" ++ side_selection self spot chain "PE".
Proof.
  intros Hmp. rewrite select_options_eq. apply slice_to_all.
  rewrite length_app.
  pose proof (side_selection_length self spot chain "CE" Hmp).
  pose proof (side_selection_length self spot chain "PE" Hmp).
  pose proof (Z.mul_div_le (max_positions (strategy (config self))) 2).
  lia.
Qed.

Lemma side_selection_sorted self spot chain ty :
  StronglySorted (fun a b => distance spot a <= distance spot b)%Q
                 (side_selection self spot chain ty).
Proof.
  unfold side_selection.
  destruct (slice_to_take
              (Z.div (max_positions (strategy (config self))) 2)
              (sort_by (distance spot)
                 (List.filter (is_type ty)
                    (sort_by spread (List.filter (has_premium self) chain)))))
    as [k ->].
  eapply StronglySorted_app_1_l. rewrite take_drop. apply sort_by_sorted.
Qed.

(** X5.  With [max_positions >= 0] the selection is the chosen CE options
    followed by the chosen PE options, each group in nondecreasing strike
    distance from spot; the final truncation removes nothing, so at most
    [2 * (max_positions // 2)] options are selected (one slot stays empty
    when [max_positions] is odd). *)
Theorem select_options_shape (self : DeltaNeutralStrategy) (spot_price : Q)
        (options_chain : list Opt.t) :
  (0 <= max_positions (strategy (config self)))%Z ->
  exists calls puts,
    select_options self spot_price options_chain = calls ++ puts
    /\ Forall (fun opt => Opt.instrument_type opt = "CE"%string) calls
    /\ Forall (fun opt => Opt.instrument_type opt = "PE"%string) puts
    /\ StronglySorted
         (fun a b => distance spot_price a <= distance spot_price b)%Q calls
    /\ StronglySorted
         (fun a b => distance spot_price a <= distance spot_price b)%Q puts
    /\ (Z.of_nat (length (select_options self spot_price options_chain))
        <= 2 * Z.div (max_positions (strategy (config self))) 2)%Z.
Proof.
  intros Hmp.
  exists (side_selection self spot_price options_chain "CE"),
         (side_selection self spot_price options_chain "PE").
  rewrite select_options_sides by assumption.
  split; [reflexivity|].
  split; [eapply Forall_impl; [apply side_selection_type|];
          intros opt H; now apply String.eqb_eq in H|].
  split; [eapply Forall_impl; [apply side_selection_type|];
          intros opt H; now apply String.eqb_eq in H|].
  split; [apply side_selection_sorted|].
  split; [apply side_selection_sorted|].
  rewrite length_app.
  pose proof (side_selection_length self spot_price options_chain "CE" Hmp).
  pose proof (side_selection_length self spot_price options_chain "PE" Hmp).
  lia.
Qed.

Lemma filter_two_submseteq {A} (f g : A -> bool) (l : list A) :
  (forall x, f x = true -> g x = true -> False) ->
  List.filter f l ++ List.filter g l ⊆+ l.
Proof.
  intros Hfg. induction l as [|x l IH]; simpl; [constructor|].
  destruct (f x) eqn:Ef, (g x) eqn:Eg.
  - destruct (Hfg x Ef Eg).
  - simpl. now constructor.
  - rewrite <- Permutation_middle. now constructor.
  - now apply submseteq_cons.
Qed.

Lemma side_selection_submseteq self spot chain ty :
  side_selection self spot chain ty
  ⊆+ List.filter (is_type ty)
       (sort_by spread (List.filter (has_premium self) chain)).
Proof.
  unfold side_selection.
  etransitivity;
    [apply sublist_submseteq, prefix_is_sublist, slice_to_prefix|].
  apply Permutation_submseteq, sort_by_perm.
Qed.

(** X6.  Whatever the configuration, the selection is drawn from the
    chain without repetition: it is a sub-multiset of [options_chain], so
    no chain entry is selected more often than it is listed, and every
    selected option is a CE or a PE. *)
Theorem select_options_from_chain (self : DeltaNeutralStrategy)
        (spot_price : Q) (options_chain : list Opt.t) :
  select_options self spot_price options_chain ⊆+ options_chain
  /\ Forall (fun opt => Opt.instrument_type opt = "CE"%string
                        \/ Opt.instrument_type opt = "PE"%string)
            (select_options self spot_price options_chain).
Proof.
  rewrite select_options_eq.
  set (SC := side_selection self spot_price options_chain "CE").
  set (SP := side_selection self spot_price options_chain "PE").
  split.
  - etransitivity;
      [apply sublist_submseteq, prefix_is_sublist, slice_to_prefix|].
    etransitivity;
      [apply submseteq_app; apply side_selection_submseteq|].
    etransitivity.
    { apply filter_two_submseteq. unfold is_type. intros x H1 H2.
      apply String.eqb_eq in H1, H2. congruence. }
    etransitivity; [apply Permutation_submseteq, sort_by_perm|].
    apply sublist_submseteq, filter_is_sublist.
  - eapply Forall_sublist; [apply prefix_is_sublist, slice_to_prefix|].
    apply Forall_app. split;
      (eapply Forall_impl; [apply side_selection_type|]);
      intros opt H; apply String.eqb_eq in H; auto.
Qed.

Lemma elem_of_filter_bool {A} (f : A -> bool) (l : list A) (x : A) :
  x ∈ List.filter f l <-> x ∈ l /\ f x = true.
Proof. rewrite !list_elem_of_In. apply filter_In. Qed.

Lemma side_selection_nearest self spot chain ty x y :
  x ∈ chain -> has_premium self x = true -> is_type ty x = true ->
  y ∈ side_selection self spot chain ty ->
  (distance spot x < distance spot y)%Q ->
  x ∈ side_selection self spot chain ty.
Proof.
  intros Hx Hprem Hty Hy Hlt. unfold side_selection in *.
  set (L := sort_by (distance spot)
              (List.filter (is_type ty)
                 (sort_by spread (List.filter (has_premium self) chain)))) in *.
  assert (HxL : x ∈ L).
  { unfold L. rewrite sort_by_perm. apply elem_of_filter_bool.
    split; [|assumption]. rewrite sort_by_perm.
    now apply elem_of_filter_bool. }
  destruct (slice_to_take (Z.div (max_positions (strategy (config self))) 2) L)
    as [k Hk].
  rewrite Hk in *.
  rewrite <- (take_drop k L) in HxL. apply elem_of_app in HxL as [?|Hd];
    [assumption|].
  exfalso.
  assert (Hs : StronglySorted (fun a b => distance spot a <= distance spot b)%Q
                              (take k L ++ drop k L))
    by (rewrite take_drop; apply sort_by_sorted).
  pose proof (StronglySorted_app_1_elem_of _ _ _ _ _ Hs Hy Hd). simpl in *. lra.
Qed.

(** X7.  With [max_positions >= 0], a nearer strike is never passed over
    for a farther one: if an option of the chain meets the premium floor
    and lies strictly closer to spot than a selected option of the same
    type, it is selected too. *)
Theorem select_options_nearest (self : DeltaNeutralStrategy) (spot_price : Q)
        (options_chain : list Opt.t) (x y : Opt.t) :
  (0 <= max_positions (strategy (config self)))%Z ->
  x ∈ options_chain ->
  (min_premium (strategy (config self)) <= Opt.last_price x)%Q ->
  y ∈ select_options self spot_price options_chain ->
  Opt.instrument_type x = Opt.instrument_type y ->
  (distance spot_price x < distance spot_price y)%Q ->
  x ∈ select_options self spot_price options_chain.
Proof.
  intros Hmp Hx Hprem Hy Hty Hlt.
  rewrite select_options_sides in * by assumption.
  apply Qle_bool_iff in Hprem.
  apply elem_of_app in Hy as [Hy|Hy]; apply elem_of_app; [left | right];
    (eapply side_selection_nearest; [exact Hx | exact Hprem | | exact Hy
                                     | exact Hlt]);
    unfold is_type; rewrite Hty;
    pose proof (side_selection_type self spot_price options_chain) as HT;
    [specialize (HT "CE"%string) | specialize (HT "PE"%string)];
    rewrite Forall_forall in HT; exact (HT y Hy).
Qed.

End SelectionShape.

(** ** delta_neutral.py: sizing budget, entry and exit signals, re-marking *)

Section SignalsMore.
Import Py DeltaNeutral.





Lemma select_options_premium self spot chain :
  Forall (fun opt => (min_premium (strategy (config self))
                      <= Opt.last_price opt)%Q)
         (select_options self spot chain).
Proof.
  rewrite select_options_eq.
  eapply Forall_sublist; [apply prefix_is_sublist, slice_to_prefix|].
  apply Forall_app. split;
    (eapply Forall_impl; [apply side_selection_premium|]);
    intros opt H; now apply Qle_bool_iff in H.
Qed.

Lemma entry_loop_ok self selected signals :
  Forall (fun opt => ~ Opt.last_price opt == 0) selected ->
  exists added,
    entry_loop self selected signals = Ok (signals ++ added)
    /\ Forall2 (fun sig opt => sig_for self opt sig) added selected.
Proof.
  intros H. revert signals.
  induction H as [|opt selected Hopt _ IH]; intros signals.
  - exists []. simpl. rewrite app_nil_r. split; [reflexivity | constructor].
  - cbn [entry_loop]. unfold calculate_position_size at 1.
    rewrite truediv_ok by exact Hopt. unfold mbind, result_bind.
    edestruct IH as (added & -> & Hadded).
    eexists (_ :: added). rewrite <- app_assoc. split; [reflexivity|].
    constructor; [|exact Hadded].
    unfold sig_for, calculate_position_size. cbn.
    rewrite truediv_ok by exact Hopt. unfold mbind, result_bind.
    repeat split. apply Z.le_max_l.
Qed.

Lemma entry_loop_raise self selected signals :
  Exists (fun opt => Opt.last_price opt == 0) selected ->
  entry_loop self selected signals = Raise ZeroDivisionError.
Proof.
  intros H. revert signals.
  induction selected as [|opt selected IH]; intros signals; [inversion H|].
  cbn [entry_loop]. unfold calculate_position_size, truediv.
  destruct (Qeq_bool (Opt.last_price opt) 0) eqn:E; [reflexivity|].
  apply Qeq_bool_neq in E. unfold mbind, result_bind. apply IH.
  inversion H; subst; [contradiction | assumption].
Qed.

(** X9.  With room for positions, a non-empty chain and a positive
    [min_premium], [get_entry_signals] returns one BUY per selected
    option, in selection order, carrying the option's symbol, type, strike
    and expiry and the quantity [calculate_position_size] gives it (at
    least 1); there are at most [max_positions] signals, whatever room is
    left.  If instead a selected option has last price 0, the call raises
    ZeroDivisionError. *)
Theorem get_entry_signals_selected (self : DeltaNeutralStrategy)
        (first : Opt.t) (rest : list Opt.t) :
  (Z.of_nat (size (Portfolio.positions (portfolio self)))
   < max_positions (strategy (config self)))%Z ->
  let selected :=
    select_options self (Opt.underlying_price first) (first :: rest) in
  ((0 < min_premium (strategy (config self)))%Q ->
   exists signals,
     get_entry_signals self (first :: rest) = Ok signals
     /\ Forall2 (fun sig opt => sig_for self opt sig) signals selected
     /\ (Z.of_nat (length signals)
         <= max_positions (strategy (config self)))%Z)
  /\ (Exists (fun opt => Opt.last_price opt == 0) selected ->
      get_entry_signals self (first :: rest) = Raise ZeroDivisionError).
Proof.
  intros Hroom selected. unfold get_entry_signals.
  apply Z.leb_gt in Hroom. rewrite Hroom. fold selected. split.
  - intros Hmin.
    destruct (entry_loop_ok self selected []) as (signals & Hs & HF).
    { eapply Forall_impl; [apply select_options_premium|].
      simpl. intros opt Hopt. lra. }
    exists signals. split; [exact Hs|]. split; [exact HF|].
    rewrite (Forall2_length _ _ _ HF). apply slice_to_length.
    apply Z.leb_gt in Hroom. lia.
  - apply entry_loop_raise.
Qed.

Lemma exit_loop_cases tp ml items signals :
  (Forall (fun item : string * Portfolio.Position =>
             ~ Portfolio.entry_price (snd item)
               * inject_Z (Portfolio.quantity (snd item)) == 0) items
   /\ exit_loop tp ml items signals
      = Ok (signals ++ omap (exit_signal_of tp ml) items))
  \/ (Exists (fun item : string * Portfolio.Position =>
                Portfolio.entry_price (snd item)
                * inject_Z (Portfolio.quantity (snd item)) == 0) items
      /\ exit_loop tp ml items signals = Raise ZeroDivisionError).
Proof.
  assert (Hdec : forall items : list (string * Portfolio.Position),
             Forall (fun item =>
                       ~ Portfolio.entry_price (snd item)
                         * inject_Z (Portfolio.quantity (snd item)) == 0) items
             \/ Exists (fun item =>
                          Portfolio.entry_price (snd item)
                          * inject_Z (Portfolio.quantity (snd item)) == 0)
                       items).
  { clear. induction items as [|item items [IH|IH]].
    - left. constructor.
    - destruct (Qeq_dec (Portfolio.entry_price (snd item)
                         * inject_Z (Portfolio.quantity (snd item))) 0).
      + right. now constructor.
      + left. now constructor.
    - right. now constructor. }
  destruct (Hdec items) as [H|H].
  - left. split; [exact H | now apply exit_loop_ok].
  - right. split; [exact H | now apply exit_loop_raise].
Qed.

Lemma exit_signals_symbols tp ml (items : list (string * Portfolio.Position)) :
  (ex_symbol <$> omap (exit_signal_of tp ml) items) `sublist_of` items.*1.
Proof.
  induction items as [|[sym p] items IH]; simpl; [constructor|].
  unfold exit_signal_of at 1. simpl.
  destruct (_ || _); simpl; now constructor.
Qed.

(** X10.  [get_exit_signals] either returns or raises ZeroDivisionError,
    and it raises exactly when some open position has entry_price 0 or
    quantity 0.  When it returns, every signal is a SELL for the full
    quantity of an open position, and no position gets two signals. *)
Theorem get_exit_signals_outcomes (self : DeltaNeutralStrategy) :
  (get_exit_signals self = Raise ZeroDivisionError
   <-> exists sym p,
       Portfolio.positions (portfolio self) !! sym = Some p
       /\ (Portfolio.entry_price p == 0 \/ Portfolio.quantity p = 0%Z))
  /\ ((exists signals, get_exit_signals self = Ok signals)
      \/ get_exit_signals self = Raise ZeroDivisionError)
  /\ (forall signals,
         get_exit_signals self = Ok signals ->
         NoDup (ex_symbol <$> signals)
         /\ forall s, s ∈ signals ->
                      ex_action s = "SELL"%string
                      /\ exists p,
                         Portfolio.positions (portfolio self) !! ex_symbol s
                         = Some p
                         /\ ex_quantity s = Portfolio.quantity p).
Proof.
  unfold get_exit_signals.
  destruct (exit_loop_cases (target_profit_percentage (trading (config self)) / 100)
              (max_loss_percentage (trading (config self)) / 100)
              (map_to_list (Portfolio.positions (portfolio self))) [])
    as [[HF ->]|[HE ->]].
  - split; [|split].
    + split; [discriminate|]. intros (sym & p & Hp & Hz). exfalso.
      rewrite Forall_forall in HF.
      apply (HF (sym, p)); [now apply elem_of_map_to_list|].
      simpl. now apply denominator_zero.
    + left. eauto.
    + intros signals [= <-]. simpl. split.
      * eapply sublist_NoDup; [|apply exit_signals_symbols].
        apply NoDup_fst_map_to_list.
      * intros s Hs. apply list_elem_of_omap in Hs as ([sym p] & Hin & Hs).
        apply elem_of_map_to_list in Hin.
        unfold exit_signal_of in Hs. simpl in Hs.
        destruct (orb _ _) in Hs; [|discriminate]. injection Hs as <-.
        simpl. split; [reflexivity|]. eauto.
  - split; [|split].
    + split; [|reflexivity]. intros _.
      apply Exists_exists in HE as ([sym p] & Hin & Hz).
      apply elem_of_map_to_list in Hin. simpl in Hz.
      apply denominator_zero in Hz. eauto.
    + now right.
    + discriminate.
Qed.

Lemma portfolio_eq (a b : Portfolio.PortfolioManager) :
  Portfolio.positions a = Portfolio.positions b ->
  Portfolio.target_delta a = Portfolio.target_delta b -> a = b.
Proof. destruct a, b. simpl. now intros -> ->. Qed.

Lemma strategy_eq (a b : DeltaNeutralStrategy) :
  config a = config b -> portfolio a = portfolio b -> a = b.
Proof. destruct a, b. simpl. now intros -> ->. Qed.

(** X11.  Re-marking is idempotent and an empty snapshot is the identity:
    applying the same snapshot twice gives what applying it once gives,
    and [update_positions] with no quotes leaves the strategy as it was. *)
Theorem update_positions_idempotent (self : DeltaNeutralStrategy)
        (market_data : gmap string Quote.t) :
  update_positions (update_positions self market_data) market_data
  = update_positions self market_data
  /\ update_positions self ∅ = self.
Proof.
  split.
  - apply strategy_eq; [reflexivity|]. apply portfolio_eq.
    + apply map_eq. intros sym. rewrite !update_positions_lookup.
      destruct (Portfolio.positions (portfolio self) !! sym); simpl;
        [now rewrite marked_idem | reflexivity].
    + unfold update_positions. simpl. now rewrite !update_loop_target.
  - apply strategy_eq; [reflexivity|]. apply portfolio_eq.
    + apply map_eq. intros sym. rewrite update_positions_lookup.
      destruct (Portfolio.positions (portfolio self) !! sym); simpl;
        [|reflexivity].
      unfold marked. now rewrite lookup_empty.
    + unfold update_positions. simpl. now rewrite update_loop_target.
Qed.

End SignalsMore.

(** ** paper_trading.py: more on orders and market data *)

Section PaperTradingMore.
Import Py PaperTrading.

(** The order [place_order] records when the symbol is quoted. *)
Lemma place_order_outcome self sym q side ot data :
  get_market_data self [sym] !! sym = Some data ->
  exists r P,
    place_order self sym q side ot
    = (r, mkExecutor P
            (orders self
             ++ [mkOrder sym q side ot (Quote.last_price data) "COMPLETE"
                         (Z.of_nat (length (orders self)) + 1)])
            (market_data self))
    /\ (r = Ok (mkOrder sym q side ot (Quote.last_price data) "COMPLETE"
                        (Z.of_nat (length (orders self)) + 1))
        \/ (r = Raise ZeroDivisionError /\ side = "BUY"%string
            /\ exists pos, positions self !! sym = Some pos
                           /\ (Portfolio.quantity pos + q = 0)%Z))
    /\ forall other, other <> sym -> P !! other = positions self !! other.
Proof.
  intros Hmd. unfold place_order. rewrite Hmd. cbn zeta.
  destruct (String.eqb side "BUY") eqn:Eb.
  - apply String.eqb_eq in Eb. subst side.
    destruct (positions self !! sym) as [pos|] eqn:Hpos.
    + destruct (_ =? _)%Z eqn:E.
      * apply Z.eqb_eq in E. eexists _, _. split; [reflexivity|].
        split; [right; eauto | reflexivity].
      * eexists _, _. split; [reflexivity|]. split; [now left|].
        intros other Hne. now rewrite lookup_insert_ne.
    + eexists _, _. split; [reflexivity|]. split; [now left|].
      intros other Hne. now rewrite lookup_insert_ne.
  - destruct (String.eqb side "SELL").
    + destruct (positions self !! sym) as [pos|] eqn:Hpos.
      * destruct (_ <=? _)%Z; eexists _, _; (split; [reflexivity|]);
          (split; [now left|]); intros other Hne;
          [now rewrite lookup_delete_ne | now rewrite lookup_insert_ne].
      * eexists _, _. split; [reflexivity|]. split; [now left | reflexivity].
    + eexists _, _. split; [reflexivity|]. split; [now left | reflexivity].
Qed.

(** X12.  Once market data is loaded, an order for a symbol it does not
    quote raises ValueError and leaves the executor untouched (no order is
    recorded).  With no market data loaded, no order is ever refused for
    lack of a quote: each is recorded at the simulated price 100. *)
Theorem place_order_market_data (self : PaperTradingExecutor) (sym : string)
        (q : Z) (side ot : string) :
  (size (market_data self) <> 0%nat -> market_data self !! sym = None ->
   place_order self sym q side ot
   = (Raise (ValueError ("No market data available for " +:+ sym)), self))
  /\ (size (market_data self) = 0%nat ->
      orders (snd (place_order self sym q side ot))
      = orders self
        ++ [mkOrder sym q side ot 100 "COMPLETE"
                    (Z.of_nat (length (orders self)) + 1)]).
Proof.
  split.
  - intros Hsize Hnone. unfold place_order.
    rewrite get_market_data_lookup.
    apply Nat.eqb_neq in Hsize. now rewrite Hsize, Hnone.
  - intros Hsize.
    destruct (place_order_outcome self sym q side ot simulated_quote)
      as (r & P & -> & _).
    + rewrite get_market_data_lookup. apply Nat.eqb_eq in Hsize.
      now rewrite Hsize.
    + reflexivity.
Qed.

(** X13.  An order touches nothing but its own symbol: whatever its side
    and outcome, the positions held under every other symbol and the
    market data are as before. *)
Theorem place_order_frame (self : PaperTradingExecutor) (sym : string)
        (q : Z) (side ot : string) (other : string) :
  other <> sym ->
  positions (snd (place_order self sym q side ot)) !! other
  = positions self !! other
  /\ market_data (snd (place_order self sym q side ot)) = market_data self.
Proof.
  intros Hne.
  destruct (get_market_data self [sym] !! sym) as [data|] eqn:Hmd.
  - destruct (place_order_outcome self sym q side ot data Hmd)
      as (r & P & -> & _ & HP).
    simpl. split; [now apply HP | reflexivity].
  - unfold place_order. rewrite Hmd. split; reflexivity.
Qed.

Lemma place_order_orders self sym q side ot :
  orders (snd (place_order self sym q side ot)) = orders self
  \/ exists order,
      orders (snd (place_order self sym q side ot)) = orders self ++ [order]
      /\ order_id order = (Z.of_nat (length (orders self)) + 1)%Z
      /\ status order = "COMPLETE"%string.
Proof.
  destruct (get_market_data self [sym] !! sym) as [data|] eqn:Hmd.
  - destruct (place_order_outcome self sym q side ot data Hmd)
      as (r & P & -> & _). right. eexists. simpl. repeat split.
  - left. unfold place_order. now rewrite Hmd.
Qed.

(** X14.  The order log is numbered from 1 without gaps: in every state
    reached from construction, the order at index [i] has [order_id]
    [i + 1] and status COMPLETE. *)
Theorem orders_numbered (self : PaperTradingExecutor) :
  reachable self ->
  forall (i : nat) order,
    orders self !! i = Some order ->
    order_id order = (Z.of_nat i + 1)%Z /\ status order = "COMPLETE"%string.
Proof.
  induction 1 as [md|self sym q side ot _ IH Hq|self update _ IH];
    intros i order Hi.
  - simpl in Hi. now rewrite lookup_nil in Hi.
  - destruct (place_order_orders self sym q side ot)
      as [E|(order' & E & Hid & Hst)]; rewrite E in Hi; [now apply IH|].
    apply lookup_app_Some in Hi as [Hi|[Hlen Hi]]; [now apply IH|].
    apply list_lookup_singleton_Some in Hi as [Hi <-].
    split; [|exact Hst]. rewrite Hid. lia.
  - apply IH. exact Hi.
Qed.

(** X15.  A SELL never opens a short: on a symbol that is not held the
    order is still reported COMPLETE but the positions are unchanged; on a
    held symbol with more contracts than sold, the position keeps its
    entry price and its quantity drops by the amount sold. *)
Theorem place_order_sell (self : PaperTradingExecutor) (sym : string)
        (q : Z) (ot : string) (data : Quote.t) :
  get_market_data self [sym] !! sym = Some data ->
  (positions self !! sym = None ->
   exists order,
     fst (place_order self sym q "SELL" ot) = Ok order
     /\ status order = "COMPLETE"%string
     /\ positions (snd (place_order self sym q "SELL" ot)) = positions self)
  /\ (forall pos,
         positions self !! sym = Some pos ->
         (q < Portfolio.quantity pos)%Z ->
         exists pos',
           positions (snd (place_order self sym q "SELL" ot)) !! sym
           = Some pos'
           /\ Portfolio.quantity pos' = (Portfolio.quantity pos - q)%Z
           /\ Portfolio.entry_price pos' = Portfolio.entry_price pos
           /\ Portfolio.current_price pos' = Portfolio.current_price pos).
Proof.
  intros Hmd. unfold place_order. rewrite Hmd. cbn zeta.
  change (String.eqb "SELL" "BUY") with false.
  change (String.eqb "SELL" "SELL") with true. cbn iota. split.
  - intros ->. eexists. simpl. repeat split.
  - intros pos -> Hlt.
    assert (E : (Portfolio.quantity pos - q <=? 0)%Z = false)
      by (apply Z.leb_gt; lia).
    rewrite E. simpl. rewrite lookup_insert_eq. eexists. split; [reflexivity|].
    simpl. repeat split.
Qed.

(** X16.  Buying a symbol that is not held and then selling the same
    positive quantity restores the positions map exactly. *)
Theorem place_order_buy_sell_round_trip (self : PaperTradingExecutor)
        (sym : string) (q : Z) (ot ot' : string) (data : Quote.t) :
  get_market_data self [sym] !! sym = Some data ->
  positions self !! sym = None ->
  (0 < q)%Z ->
  positions
    (snd (place_order (snd (place_order self sym q "BUY" ot)) sym q "SELL" ot'))
  = positions self.
Proof.
  intros Hmd Hnone Hq.
  assert (Hbuy : place_order self sym q "BUY" ot
                 = (Ok (mkOrder sym q "BUY" ot (Quote.last_price data)
                                "COMPLETE"
                                (Z.of_nat (length (orders self)) + 1)),
                    mkExecutor
                      (<[sym := Portfolio.mkPosition sym q
                                  (Quote.last_price data)
                                  (Quote.last_price data) (Quote.delta data)
                                  (Quote.instrument_type data)
                                  (Quote.strike data) (Quote.expiry data)]>
                         (positions self))
                      (orders self
                       ++ [mkOrder sym q "BUY" ot (Quote.last_price data)
                                   "COMPLETE"
                                   (Z.of_nat (length (orders self)) + 1)])
                      (market_data self))).
  { unfold place_order. rewrite Hmd. cbn zeta.
    change (String.eqb "BUY" "BUY") with true. cbn iota. now rewrite Hnone. }
  rewrite Hbuy. cbn [snd].
  erewrite place_order_sell_out.
  - cbn [snd positions]. now apply delete_insert_id.
  - rewrite get_market_data_lookup in *. exact Hmd.
  - cbn [positions]. apply lookup_insert_eq.
  - simpl. lia.
Qed.


End PaperTradingMore.

(** ** paper_trading.py and base.py: market updates and batches of signals *)

Section PaperTradingBatches.
Import Py PaperTrading.

Lemma setattr_mark p data sym update :
  update !! sym = Some data ->
  Portfolio.setattr
    (Portfolio.setattr p "current_price" (Quote.last_price data))
    "delta" (Quote.delta data)
  = marked update sym p.
Proof. intros H. unfold marked. now rewrite H. Qed.

(** X18.  [simulate_market_update] re-marks exactly the held positions the
    update quotes (current price and delta; quantity and entry price stay),
    keeps the order log, and makes the next order for a quoted symbol fill
    at the quoted last price. *)
Theorem simulate_market_update_effect (self : PaperTradingExecutor)
        (update : gmap string Quote.t) (sym : string) :
  positions (simulate_market_update self update) !! sym
  = marked update sym <$> positions self !! sym
  /\ orders (simulate_market_update self update) = orders self
  /\ (forall data q side ot,
         update !! sym = Some data ->
         orders (snd (place_order (simulate_market_update self update)
                                  sym q side ot))
         = orders self
           ++ [mkOrder sym q side ot (Quote.last_price data) "COMPLETE"
                       (Z.of_nat (length (orders self)) + 1)]).
Proof.
  split; [|split].
  - unfold simulate_market_update. cbn [positions].
    rewrite map_lookup_imap.
    destruct (positions self !! sym) as [pos|]; [|reflexivity]. simpl.
    destruct (update !! sym) as [data|] eqn:E.
    + f_equal. now apply setattr_mark.
    + unfold marked. now rewrite E.
  - reflexivity.
  - intros data q side ot Hd.
    assert (Hmd : get_market_data (simulate_market_update self update) [sym]
                  !! sym = Some data).
    { rewrite get_market_data_lookup. cbn [simulate_market_update market_data].
      assert (Hu : (update ∪ market_data self) !! sym = Some data)
        by now apply lookup_union_Some_l.
      destruct (size (update ∪ market_data self) =? 0)%nat eqn:E; [|exact Hu].
      apply Nat.eqb_eq, map_size_empty_iff in E.
      rewrite E, lookup_empty in Hu. discriminate. }
    destruct (place_order_outcome _ sym q side ot data Hmd)
      as (r & P & -> & _).
    reflexivity.
Qed.

Lemma execute_trades_simulated self signals executed :
  size (market_data self) = 0%nat ->
  all_long self ->
  Forall (fun signal => (0 < t_quantity signal)%Z) signals ->
  exists new,
    fst (execute_trades self signals executed) = executed ++ new
    /\ orders (snd (execute_trades self signals executed))
       = orders self ++ new
    /\ Forall2 (fun signal order =>
                  symbol order = t_symbol signal
                  /\ quantity order = t_quantity signal
                  /\ side order = t_action signal
                  /\ price order = 100%Q) signals new.
Proof.
  intros Hsize Hlong Hpos. revert self executed Hsize Hlong.
  induction Hpos as [|signal signals Hq _ IH]; intros self executed Hsize Hlong.
  - exists []. simpl. now rewrite !app_nil_r.
  - cbn [execute_trades].
    assert (Hmd : get_market_data self [t_symbol signal] !! t_symbol signal
                  = Some simulated_quote).
    { rewrite get_market_data_lookup. apply Nat.eqb_eq in Hsize.
      now rewrite Hsize. }
    pose proof (place_order_all_long self (t_symbol signal)
                  (t_quantity signal) (t_action signal) "MARKET" Hq Hlong)
      as Hlong'.
    destruct (place_order_outcome self (t_symbol signal) (t_quantity signal)
                (t_action signal) "MARKET" simulated_quote Hmd)
      as (r & P & E & [->|(-> & _ & pos & Hp & Hz)] & _).
    + rewrite E in *. cbn [snd] in Hlong'.
      set (order := mkOrder (t_symbol signal) (t_quantity signal)
                      (t_action signal) "MARKET"
                      (Quote.last_price simulated_quote) "COMPLETE"
                      (Z.of_nat (length (orders self)) + 1)) in *.
      destruct (IH (mkExecutor P (orders self ++ [order]) (market_data self))
                   (executed ++ [order]) Hsize Hlong')
        as (new & H1 & H2 & H3).
      eexists (_ :: new). rewrite H1, H2. cbn [orders].
      rewrite <- !app_assoc. split; [reflexivity|]. split; [reflexivity|].
      constructor; [|exact H3]. simpl. repeat split.
    + specialize (Hlong _ _ Hp). lia.
Qed.

(** X19.  In simulation (no market data loaded), a batch of signals with
    positive quantities sent to an executor reached from construction is
    executed in full: one order per signal, in order, with the signal's
    symbol, quantity and side, each at price 100, and these orders are
    exactly what is appended to the order log. *)
Theorem execute_trades_in_simulation (self : PaperTradingExecutor)
        (signals : list Trade) :
  reachable self ->
  size (market_data self) = 0%nat ->
  Forall (fun signal => (0 < t_quantity signal)%Z) signals ->
  let executed := fst (execute_trades self signals []) in
  orders (snd (execute_trades self signals [])) = orders self ++ executed
  /\ Forall2 (fun signal order =>
                symbol order = t_symbol signal
                /\ quantity order = t_quantity signal
                /\ side order = t_action signal
                /\ price order = 100%Q) signals executed.
Proof.
  intros Hreach Hsize Hpos executed. subst executed.
  destruct (execute_trades_simulated self signals [] Hsize
              (reachable_all_long _ Hreach) Hpos) as (new & -> & -> & H).
  simpl. split; [reflexivity | exact H].
Qed.

End PaperTradingBatches.

(** ** base.py: the execution cycle *)

Section ExecutionCycle.
Import Py Executor.

Lemma execute_adjustments self adjustments executed :
  execute_trades self (AdjustSig <$> adjustments) executed = (executed, self).
Proof.
  induction adjustments as [|a adjustments IH]; [reflexivity | exact IH].
Qed.

Lemma check_and_adjust_portfolio_id (s : Session) :
  check_and_adjust_portfolio s = s.
Proof.
  unfold check_and_adjust_portfolio.
  destruct (DeltaNeutral.check_adjustment_needed (strategy s))
    as [needs adjustments].
  destruct needs; [|reflexivity].
  rewrite execute_adjustments. now destruct s.
Qed.

(** X20.  Delta adjustments are never executed: the suggested trades
    carry neither a symbol nor a quantity, so [execute_trades] skips each
    of them, and [check_and_adjust_portfolio] leaves the session (strategy,
    positions, orders, market data) exactly as it was. *)
Theorem check_and_adjust_portfolio_inert (s : Session) :
  check_and_adjust_portfolio s = s
  /\ forall self adjustments,
      execute_trades self (AdjustSig <$> adjustments) [] = ([], self).
Proof.
  split; [apply check_and_adjust_portfolio_id|].
  intros; apply execute_adjustments.
Qed.

Lemma only_sold_refl self : only_sold self self.
Proof.
  split; [reflexivity|]. split; [|auto].
  exists []. now rewrite app_nil_r.
Qed.

Lemma only_sold_trans a b c : only_sold a b -> only_sold b c -> only_sold a c.
Proof.
  intros (M1 & (n1 & O1 & F1) & P1) (M2 & (n2 & O2 & F2) & P2).
  split; [congruence|]. split; [|auto].
  exists (n1 ++ n2). rewrite O2, O1, app_assoc. split; [reflexivity|].
  now apply Forall_app.
Qed.

Lemma place_order_sell_only self sym q :
  only_sold self (snd (PaperTrading.place_order self sym q "SELL" "MARKET")).
Proof.
  destruct (PaperTrading.get_market_data self [sym] !! sym) as [data|] eqn:Hmd.
  - unfold PaperTrading.place_order. rewrite Hmd. cbn zeta.
    change (String.eqb "SELL" "BUY") with false.
    change (String.eqb "SELL" "SELL") with true. cbn iota.
    assert (Hnew : forall P,
               (forall k, PaperTrading.positions self !! k = None ->
                          P !! k = None) ->
               only_sold self
                 (PaperTrading.mkExecutor P
                    (PaperTrading.orders self
                     ++ [PaperTrading.mkOrder sym q "SELL" "MARKET"
                           (Quote.last_price data) "COMPLETE"
                           (Z.of_nat (length (PaperTrading.orders self)) + 1)])
                    (PaperTrading.market_data self))).
    { intros P HP. split; [reflexivity|]. split; [|exact HP].
      eexists. split; [reflexivity|]. now repeat constructor. }
    destruct (PaperTrading.positions self !! sym) as [pos|] eqn:Hpos.
    + destruct (_ <=? _)%Z; apply Hnew; intros k Hk.
      * rewrite lookup_delete. destruct (decide (sym = k)); congruence.
      * rewrite lookup_insert. destruct (decide (sym = k)); congruence.
    + now apply Hnew.
  - unfold PaperTrading.place_order. rewrite Hmd. apply only_sold_refl.
Qed.

Lemma execute_exits self exits executed :
  Forall (fun x => DeltaNeutral.ex_action x = "SELL"%string) exits ->
  only_sold self (snd (execute_trades self (ExitSig <$> exits) executed)).
Proof.
  intros H. revert self executed.
  induction H as [|x exits Hx _ IH]; intros self executed;
    [apply only_sold_refl|].
  cbn [fmap list_fmap execute_trades signal_symbol signal_quantity
       signal_action]. rewrite Hx.
  pose proof (place_order_sell_only self (DeltaNeutral.ex_symbol x)
                (DeltaNeutral.ex_quantity x)) as Hs.
  destruct (PaperTrading.place_order self (DeltaNeutral.ex_symbol x)
              (DeltaNeutral.ex_quantity x) "SELL" "MARKET") as [[order|e] self'];
    cbn [snd] in Hs; (eapply only_sold_trans; [exact Hs | apply IH]).
Qed.

Lemma exit_signals_sell self signals :
  DeltaNeutral.get_exit_signals self = Ok signals ->
  Forall (fun x => DeltaNeutral.ex_action x = "SELL"%string) signals.
Proof.
  unfold DeltaNeutral.get_exit_signals.
  destruct (exit_loop_cases
              (DeltaNeutral.target_profit_percentage
                 (DeltaNeutral.trading (DeltaNeutral.config self)) / 100)
              (DeltaNeutral.max_loss_percentage
                 (DeltaNeutral.trading (DeltaNeutral.config self)) / 100)
              (map_to_list (Portfolio.positions (DeltaNeutral.portfolio self)))
              []) as [[_ ->]|[_ ->]]; [|discriminate].
  intros [= <-]. simpl. apply Forall_forall. intros x Hx.
  apply list_elem_of_omap in Hx as (item & _ & Hx).
  unfold exit_signal_of in Hx. destruct (orb _ _) in Hx; [|discriminate].
  now injection Hx as <-.
Qed.

(** X21.  One cycle of [monitor_and_execute] on the paper executor never
    buys: the strategy comes out as [update_portfolio] left it (its
    portfolio is re-marked, never filled), the market data is unchanged,
    every order appended to the log is a SELL, and no symbol gains a
    position. *)
Theorem monitor_and_execute_never_buys (s : Session) :
  strategy (monitor_and_execute s) = strategy (update_portfolio s)
  /\ PaperTrading.market_data (executor (monitor_and_execute s))
     = PaperTrading.market_data (executor s)
  /\ (exists new,
         PaperTrading.orders (executor (monitor_and_execute s))
         = PaperTrading.orders (executor s) ++ new
         /\ Forall (fun order => PaperTrading.side order = "SELL"%string) new)
  /\ forall sym,
      PaperTrading.positions (executor s) !! sym = None ->
      PaperTrading.positions (executor (monitor_and_execute s)) !! sym = None.
Proof.
  assert (H : strategy (monitor_and_execute s) = strategy (update_portfolio s)
              /\ only_sold (executor s) (executor (monitor_and_execute s))).
  { unfold monitor_and_execute.
    assert (Hu : executor (update_portfolio s) = executor s).
    { unfold update_portfolio. now destruct (_ <$> _). }
    destruct (DeltaNeutral.get_exit_signals (strategy (update_portfolio s)))
      as [exits|e] eqn:Hexit.
    - set (s1 := match exits with
                 | [] => update_portfolio s
                 | _ :: _ =>
                     mkSession (strategy (update_portfolio s))
                       (snd (execute_trades (executor (update_portfolio s))
                               (ExitSig <$> exits) []))
                 end).
      assert (H1 : strategy s1 = strategy (update_portfolio s)
                   /\ only_sold (executor s) (executor s1)).
      { unfold s1. destruct exits as [|x exits].
        - rewrite Hu. split; [reflexivity | apply only_sold_refl].
        - cbn [strategy executor]. split; [reflexivity|]. rewrite Hu.
          apply execute_exits. now apply exit_signals_sell in Hexit. }
      destruct (get_entry_signals_of_dict (strategy s1)
                  (PaperTrading.get_market_data (executor s1) []))
        as [entries|] eqn:Hentry; [|exact H1].
      unfold get_entry_signals_of_dict in Hentry.
      destruct (_ <=? _)%Z in Hentry; [|discriminate].
      injection Hentry as <-.
      now rewrite check_and_adjust_portfolio_id.
    - rewrite Hu. split; [reflexivity | apply only_sold_refl]. }
  destruct H as (Hs & Hm & Ho & Hp). auto.
Qed.

Lemma simulated_market_data self (symbols : list string) sym :
  size (PaperTrading.market_data self) = 0%nat ->
  sym ∈ symbols ->
  PaperTrading.get_market_data self symbols !! sym
  = Some PaperTrading.simulated_quote.
Proof.
  intros Hsize Hin. unfold PaperTrading.get_market_data.
  apply Nat.eqb_eq in Hsize. rewrite Hsize.
  induction symbols as [|x symbols IH]; [inversion Hin|].
  cbn [fmap list_fmap list_to_map foldr]. 
  destruct (decide (x = sym)) as [->|Hne].
  - apply lookup_insert_eq.
  - rewrite lookup_insert_ne by assumption. apply IH.
    apply elem_of_cons in Hin as [?|?]; [congruence | assumption].
Qed.

(** X22.  In simulation (no market data loaded) [update_portfolio] marks
    every strategy position that is stored under its own symbol at the
    simulated quote: current price 100 and delta 1/2, whatever the
    instrument; quantity and entry price are kept. *)
Theorem update_portfolio_in_simulation (s : Session) (sym : string)
        (p : Portfolio.Position) :
  size (PaperTrading.market_data (executor s)) = 0%nat ->
  Portfolio.positions (DeltaNeutral.portfolio (strategy s)) !! sym = Some p ->
  Portfolio.symbol p = sym ->
  exists p',
    Portfolio.positions
      (DeltaNeutral.portfolio (strategy (update_portfolio s))) !! sym
    = Some p'
    /\ Portfolio.current_price p' = 100%Q
    /\ Portfolio.delta p' = (1 # 2)%Q
    /\ Portfolio.quantity p' = Portfolio.quantity p
    /\ Portfolio.entry_price p' = Portfolio.entry_price p.
Proof.
  intros Hsize Hp Hsym. unfold update_portfolio.
  set (symbols := (fun kp : string * Portfolio.Position =>
                     Portfolio.symbol (snd kp))
                    <$> map_to_list (Portfolio.positions
                                       (DeltaNeutral.portfolio (strategy s)))).
  assert (Hin : sym ∈ symbols).
  { unfold symbols. apply list_elem_of_fmap. exists (sym, p).
    split; [now rewrite <- Hsym | now apply elem_of_map_to_list]. }
  destruct symbols as [|x others] eqn:E; [inversion Hin|].
  cbn [strategy]. rewrite update_positions_lookup, Hp. simpl.
  unfold marked. rewrite (simulated_market_data _ _ _ Hsize Hin).
  eexists. split; [reflexivity|]. simpl. repeat split.
Qed.

End ExecutionCycle.

(** ** config.py: construction, access and saving *)

Section ConfigMore.
Import Py Config ConfigAccess.



(** The path [ConfigManager(config_path)] reads. *)
Lemma init_load files path :
  let effective :=
    match path with
    | Some p => if String.eqb p "" then DEFAULT_CONFIG_PATH else p
    | None => DEFAULT_CONFIG_PATH
    end in
  init files path
  = match files !! effective with
    | None => Raise FileNotFoundError
    | Some config =>
        match _validate_config config with
        | Ok _ => Ok (mkConfigManager effective config)
        | Raise e => Raise e
        end
    end.
Proof.
  intros effective. unfold init, _load_config. fold effective.
  destruct (files !! effective) as [config|]; [|reflexivity].
  unfold mbind, result_bind. destruct (_validate_config config); reflexivity.
Qed.


(** X24.  [update] writes one field and nothing else: afterwards [get]
    returns the new value for that field and what it returned before for
    every other field, and a configuration that passed validation still
    passes it.  On a section that does not exist, both [update] and [get]
    raise KeyError. *)
Theorem update_then_get (self : ConfigManager) (section field : string)
        (v : value) :
  (forall content,
      config self !! section = Some content ->
      exists self',
        update self section field v = Found self'
        /\ config_path self' = config_path self
        /\ get self' section (Some field) = Found (GotField v)
        /\ (forall section' field',
               (section', field') <> (section, field) ->
               get self' section' (Some field')
               = get self section' (Some field'))
        /\ (_validate_config (config self) = Ok tt ->
            _validate_config (config self') = Ok tt))
  /\ (config self !! section = None ->
      update self section field v
      = KeyError ("Configuration section '" +:+ section +:+ "' not found")
      /\ forall f,
          get self section f
          = KeyError ("Configuration section '" +:+ section +:+ "' not found")).
Proof.
  split.
  - intros content Hc. unfold update. rewrite Hc. eexists.
    split; [reflexivity|]. split; [reflexivity|]. split; [|split].
    + unfold get. cbn [config]. now rewrite !lookup_insert_eq.
    + intros section' field' Hne. unfold get. cbn [config].
      destruct (decide (section' = section)) as [->|Hs].
      * rewrite lookup_insert_eq, Hc.
        rewrite lookup_insert_ne by congruence. reflexivity.
      * now rewrite lookup_insert_ne.
    + unfold _validate_config. rewrite !validate_sections_ok. cbn [config].
      intros H s fs Hin. destruct (H s fs Hin) as (c & Hcs & Hf).
      destruct (decide (s = section)) as [->|Hs].
      * rewrite lookup_insert_eq. eexists. split; [reflexivity|].
        intros f Hfin. assert (c = content) as -> by congruence.
        destruct (decide (f = field)) as [->|Hne];
          [rewrite lookup_insert_eq; eauto
          | rewrite lookup_insert_ne by congruence; now apply Hf].
      * rewrite lookup_insert_ne by congruence. eauto.
  - intros Hn. unfold update, get. rewrite Hn. split; [reflexivity|].
    intros f. reflexivity.
Qed.

(** X25.  Saving and constructing again loses nothing: after [save], a
    manager built from the same path succeeds exactly when the saved
    configuration has every required field, and it then equals the
    manager that was saved. *)
Theorem save_then_init (files : gmap string (gmap string (gmap string value)))
        (self : ConfigManager) :
  config_path self <> ""%string ->
  required_present (config self) ->
  init (save files self) (Some (config_path self)) = Ok self.
Proof.
  intros Hpath Hreq. rewrite init_load.
  apply String.eqb_neq in Hpath. rewrite Hpath.
  unfold save. rewrite lookup_insert_eq.
  unfold _validate_config.
  rewrite (proj2 (validate_sections_ok _ _) Hreq). now destruct self.
Qed.

End ConfigMore.

(** ** monitoring.py: maximum drawdown *)

Section Drawdown.
Import Py Monitoring.

Lemma max_ge_l (a b : Q) : (a <= Monitoring.max a b)%Q.
Proof.
  unfold Monitoring.max. destruct (Qltb a b) eqn:E; [|lra].
  apply Qltb_lt in E. lra.
Qed.

Lemma max_le (a b c : Q) :
  (a <= c)%Q -> (b <= c)%Q -> (Monitoring.max a b <= c)%Q.
Proof. intros. unfold Monitoring.max. now destruct (Qltb a b). Qed.

Lemma drawdown_loop_ge values peak md :
  (md <= drawdown_loop values peak md)%Q.
Proof.
  revert peak md. induction values as [|v values IH]; intros peak md; simpl;
    [lra|].
  eapply Qle_trans; [apply max_ge_l | apply IH].
Qed.

Lemma drawdown_loop_le_1 values peak md :
  Forall (fun v => 0 <= v)%Q values -> (0 <= peak)%Q -> (md <= 1)%Q ->
  (drawdown_loop values peak md <= 1)%Q.
Proof.
  intros H. revert peak md.
  induction H as [|v values Hv _ IH]; intros peak md Hpeak Hmd; simpl;
    [assumption|].
  set (peak' := if Qltb peak v then v else peak).
  assert (Hp' : (0 <= peak')%Q) by (unfold peak'; now destruct (Qltb peak v)).
  apply IH; [exact Hp'|]. apply max_le; [assumption|].
  destruct (Qeq_bool peak' 0) eqn:E; simpl; [lra|].
  apply Qeq_bool_neq in E.
  apply Qle_shift_div_r; lra.
Qed.

Lemma drawdown_loop_rising values peak md :
  StronglySorted Qle values ->
  Forall (fun v => peak <= v)%Q values -> (0 <= md)%Q ->
  drawdown_loop values peak md = md.
Proof.
  intros Hs. revert peak md.
  induction Hs as [|v values _ IH Hv]; intros peak md Hpeak Hmd; simpl;
    [reflexivity|].
  inversion Hpeak as [|? ? Hpv Hrest]; subst.
  set (peak' := if Qltb peak v then v else peak).
  assert (Hp' : peak' == v).
  { unfold peak'. destruct (Qltb peak v) eqn:E; [reflexivity|].
    apply Qltb_ge in E. lra. }
  assert (Hd : (if negb (Qeq_bool peak' 0) then (peak' - v) / peak' else 0)
               == 0).
  { destruct (Qeq_bool peak' 0) eqn:E; simpl; [reflexivity|].
    apply Qeq_bool_neq in E. rewrite Hp' at 1. field. exact E. }
  assert (Hmax : Monitoring.max md
                   (if negb (Qeq_bool peak' 0) then (peak' - v) / peak' else 0)
                 = md).
  { unfold Monitoring.max.
    destruct (Qltb md _) eqn:E; [|reflexivity].
    apply Qltb_lt in E. rewrite Hd in E. lra. }
  rewrite Hmax. apply IH; [|assumption].
  eapply Forall_impl; [exact Hv|]. simpl. intros w Hw. rewrite Hp'. exact Hw.
Qed.

(** X26.  [_calculate_max_drawdown] raises IndexError on an empty series.
    On a non-empty one it returns a percentage that is never negative; it
    is at most 100 when no value is negative, and it is 0 when the series
    never falls. *)
Theorem max_drawdown_range (values : list Q) :
  (values = [] -> _calculate_max_drawdown values = Raise IndexError)
  /\ (values <> [] ->
      exists d,
        _calculate_max_drawdown values = Ok d
        /\ (0 <= d)%Q
        /\ (Forall (fun v => 0 <= v)%Q values -> (d <= 100)%Q)
        /\ (StronglySorted Qle values -> d == 0)).
Proof.
  split; [now intros ->|].
  destruct values as [|first values]; [congruence|]. intros _.
  eexists. split; [reflexivity|]. split; [|split].
  - pose proof (drawdown_loop_ge (first :: values) first 0). lra.
  - intros H.
    assert (drawdown_loop (first :: values) first 0 <= 1)%Q.
    { apply drawdown_loop_le_1; [exact H | | lra]. now inversion H. }
    lra.
  - intros Hs. rewrite drawdown_loop_rising; [ring | exact Hs | | lra].
    constructor; [lra|]. now inversion Hs.
Qed.

End Drawdown.

(** ** The further properties at concrete inputs *)

Section MoreRuns.
Import Py Examples MoreExamples.

Lemma portfolio_totals_additive_witness :
  Portfolio.total_delta (Portfolio.add_position (Portfolio.init 0) winner)
  == Portfolio.total_delta (Portfolio.init 0) + Portfolio.net_delta winner.
Proof.
  apply (proj1 (portfolio_totals_additive (Portfolio.init 0)) winner).
  reflexivity.
Defined.

Lemma add_remove_position_laws_witness :
  Portfolio.remove_position
    (Portfolio.add_position (Portfolio.init 0) winner) "WIN"
  = Portfolio.init 0.
Proof.
  apply (proj2 (proj2 (proj2 (add_remove_position_laws (Portfolio.init 0))))
           winner).
  reflexivity.
Defined.



Lemma select_options_shape_witness :
  (Z.of_nat (length (DeltaNeutral.select_options winner_strategy 100 chain))
   <= 2 * Z.div 4 2)%Z.
Proof.
  destruct (select_options_shape winner_strategy 100 chain)
    as (calls & puts & _ & _ & _ & _ & _ & H).
  - vm_compute. discriminate.
  - exact H.
Defined.

Lemma select_options_nearest_witness :
  call_100_a ∈ DeltaNeutral.select_options winner_strategy 100 chain_far_first.
Proof.
  apply (select_options_nearest winner_strategy 100 chain_far_first
           call_100_a call_105).
  - vm_compute. discriminate.
  - apply list_elem_of_In. vm_compute. auto.
  - vm_compute. discriminate.
  - apply list_elem_of_In. vm_compute. auto.
  - reflexivity.
  - vm_compute. reflexivity.
Defined.


Lemma get_entry_signals_selected_witness :
  exists signals,
    DeltaNeutral.get_entry_signals winner_strategy chain = Ok signals
    /\ (Z.of_nat (length signals) <= 4)%Z.
Proof.
  destruct (get_entry_signals_selected winner_strategy call_105
              [call_100_a; put_100_cheap; call_100_b; put_95]) as [H _].
  - vm_compute. reflexivity.
  - destruct H as (signals & Hs & _ & Hl); [vm_compute; reflexivity|].
    exists signals. split; [exact Hs | exact Hl].
Defined.

Lemma get_exit_signals_outcomes_witness :
  DeltaNeutral.get_exit_signals free_strategy = Raise ZeroDivisionError.
Proof.
  apply (proj1 (get_exit_signals_outcomes free_strategy)).
  exists "FREE"%string, free_position. split; [vm_compute; reflexivity|].
  left. vm_compute. reflexivity.
Defined.

Lemma bought_15_reachable : reachable bought_15.
Proof.
  unfold bought_15, moved_to_110, bought_10.
  apply reachable_order; [|lia]. apply reachable_update.
  apply reachable_order; [|lia]. apply (reachable_init ∅).
Qed.

Lemma place_order_market_data_witness :
  PaperTrading.place_order moved_to_110 "Y" 1 "BUY" "MARKET"
  = (Raise (ValueError "No market data available for Y"), moved_to_110).
Proof.
  apply (proj1 (place_order_market_data moved_to_110 "Y" 1 "BUY" "MARKET")).
  - vm_compute. discriminate.
  - vm_compute. reflexivity.
Defined.

Lemma place_order_frame_witness :
  PaperTrading.positions
    (snd (PaperTrading.place_order bought_15 "X" 20 "SELL" "MARKET"))
  !! "Y"%string
  = PaperTrading.positions bought_15 !! "Y"%string.
Proof.
  apply (place_order_frame bought_15 "X" 20 "SELL" "MARKET" "Y").
  discriminate.
Defined.

Lemma orders_numbered_witness :
  PaperTrading.order_id
    (PaperTrading.mkOrder "X" 5 "BUY" "MARKET" 110 "COMPLETE" 2)
  = (Z.of_nat 1 + 1)%Z.
Proof.
  apply (orders_numbered bought_15 bought_15_reachable 1).
  vm_compute. reflexivity.
Defined.

Lemma place_order_sell_witness :
  exists pos',
    PaperTrading.positions
      (snd (PaperTrading.place_order bought_15 "X" 5 "SELL" "MARKET"))
    !! "X"%string = Some pos'
    /\ Portfolio.quantity pos' = 10%Z.
Proof.
  destruct (place_order_sell bought_15 "X" 5 "MARKET"
              (Quote.mk 110 109 111 1000 (1 # 2) "CE" 100 expiry_jan))
    as [_ H].
  - vm_compute. reflexivity.
  - destruct (H (Portfolio.mkPosition "X" 15 (1550 # 15) 110 (1 # 2) "CE" 100
                                      expiry_jan))
      as (pos' & Hp & Hq & _).
    + vm_compute. reflexivity.
    + simpl. lia.
    + exists pos'. split; [exact Hp | exact Hq].
Defined.

Lemma place_order_buy_sell_round_trip_witness :
  PaperTrading.positions
    (snd (PaperTrading.place_order bought_10 "X" 10 "SELL" "MARKET"))
  = PaperTrading.positions PaperTrading.init.
Proof.
  apply (place_order_buy_sell_round_trip PaperTrading.init "X" 10
           "MARKET" "MARKET" PaperTrading.simulated_quote).
  - vm_compute. reflexivity.
  - vm_compute. reflexivity.
  - lia.
Defined.


Lemma simulate_market_update_effect_witness :
  PaperTrading.orders
    (snd (PaperTrading.place_order moved_to_110 "X" 5 "BUY" "MARKET"))
  = PaperTrading.orders bought_10
    ++ [PaperTrading.mkOrder "X" 5 "BUY" "MARKET" 110 "COMPLETE"
          (Z.of_nat (length (PaperTrading.orders bought_10)) + 1)].
Proof.
  apply (proj2 (proj2 (simulate_market_update_effect bought_10
                         {[ "X"%string :=
                              Quote.mk 110 109 111 1000 (1 # 2) "CE" 100
                                       expiry_jan ]} "X"))
           (Quote.mk 110 109 111 1000 (1 # 2) "CE" 100 expiry_jan)).
  vm_compute. reflexivity.
Defined.

Lemma execute_trades_in_simulation_witness :
  PaperTrading.orders
    (snd (PaperTrading.execute_trades PaperTrading.init two_buys []))
  = PaperTrading.orders PaperTrading.init
    ++ fst (PaperTrading.execute_trades PaperTrading.init two_buys []).
Proof.
  apply (execute_trades_in_simulation PaperTrading.init two_buys).
  - apply (reachable_init ∅).
  - reflexivity.
  - repeat constructor.
Defined.

Lemma monitor_and_execute_never_buys_witness :
  PaperTrading.positions
    (Executor.executor (Executor.monitor_and_execute simulated_session))
  !! "WIN"%string = None.
Proof.
  apply (proj2 (proj2 (proj2 (monitor_and_execute_never_buys
                                simulated_session)))).
  reflexivity.
Defined.

Lemma update_portfolio_in_simulation_witness :
  exists p',
    Portfolio.positions
      (DeltaNeutral.portfolio
         (Executor.strategy (Executor.update_portfolio simulated_session)))
    !! "WIN"%string = Some p'
    /\ Portfolio.current_price p' = 100%Q.
Proof.
  destruct (update_portfolio_in_simulation simulated_session "WIN" winner)
    as (p' & Hp & Hc & _).
  - reflexivity.
  - vm_compute. reflexivity.
  - reflexivity.
  - exists p'. split; [exact Hp | exact Hc].
Defined.

Lemma short_config_required : required_present short_config.
Proof.
  refine (proj1 (validate_sections_ok short_config Config.REQUIRED_FIELDS) _).
  vm_compute. reflexivity.
Qed.


Lemma update_then_get_witness :
  exists self',
    ConfigAccess.update short_manager "strategy" "min_premium" (Config.VNum 5)
    = ConfigAccess.Found self'
    /\ ConfigAccess.get self' "strategy" (Some "min_premium"%string)
       = ConfigAccess.Found (ConfigAccess.GotField (Config.VNum 5)).
Proof.
  destruct (proj1 (update_then_get short_manager "strategy" "min_premium"
                     (Config.VNum 5))
              (list_to_map
                 [ ("target_delta"%string, Config.VNum 0);
                   ("position_sizing"%string, Config.VNum 1);
                   ("adjustment_threshold"%string, Config.VNum (1 # 10)) ]))
    as (self' & Hu & _ & Hg & _).
  - vm_compute. reflexivity.
  - exists self'. split; [exact Hu | exact Hg].
Defined.

Lemma save_then_init_witness :
  Config.init (ConfigAccess.save ∅ short_manager)
              (Some Config.DEFAULT_CONFIG_PATH)
  = Ok short_manager.
Proof.
  apply (save_then_init ∅ short_manager).
  - discriminate.
  - exact short_config_required.
Defined.

Lemma max_drawdown_range_witness :
  exists d,
    Monitoring._calculate_max_drawdown pnl_series = Ok d
    /\ (0 <= d)%Q /\ (d <= 100)%Q.
Proof.
  destruct (proj2 (max_drawdown_range pnl_series)) as (d & Hd & H0 & H100 & _).
  - discriminate.
  - exists d. split; [exact Hd|]. split; [exact H0|]. apply H100.
    repeat constructor; vm_compute; discriminate.
Defined.

End MoreRuns.
